(** * CNTK sample installer: [bindings/python/cntk/sample_installer.py]

    A shallow embedding of the sample installer and the properties its
    specification states about it.

    - Part 1: the Python string operations the target resolver uses, and
      [module_is_unreleased] / [default_sample_url].
    - Part 2: the file system as the [os] module shows it, the library
      collaborators ([urlretrieve], [zipfile], [pip], [argparse]) as an
      interface, and a state-and-exception monad with [try ... finally].
    - Part 3: [install_samples] and the command line entry point.
    - Part 4: the properties. *)

From Stdlib Require Import ZArith Ascii String.
From stdpp Require Import base option list strings gmap fin_maps.

Local Open Scope string_scope.

(** ** Part 1. Python strings *)

Module PyStr.

(** [s.endswith(c)] for a one-character suffix [c]. *)
Fixpoint endswith (s : string) (c : ascii) : bool :=
  match s with
  | EmptyString => false
  | String a EmptyString => bool_decide (a = c)
  | String _ s' => endswith s' c
  end.

(** [s[:-1]]: all but the last character; the empty string stays empty. *)
Fixpoint drop_last (s : string) : string :=
  match s with
  | EmptyString => EmptyString
  | String _ EmptyString => EmptyString
  | String a s' => String a (drop_last s')
  end.

(** [s.replace(old, new)] for one-character [old] and [new]. *)
Fixpoint replace (old new : ascii) (s : string) : string :=
  match s with
  | EmptyString => EmptyString
  | String a s' => String (if bool_decide (a = old) then new else a) (replace old new s')
  end.

(** [s.split(sep)] for a one-character separator: adjacent separators
    give empty fields and the empty string gives one empty field. *)
Fixpoint split (sep : ascii) (s : string) : list string :=
  match s with
  | EmptyString => [EmptyString]
  | String a s' =>
      if bool_decide (a = sep) then EmptyString :: split sep s'
      else match split sep s' with
           | [] => [String a EmptyString]
           | w :: ws => String a w :: ws
           end
  end.

(** [sep.join(l)]. *)
Fixpoint join (sep : string) (l : list string) : string :=
  match l with
  | [] => EmptyString
  | [x] => x
  | x :: xs => x +:+ sep +:+ join sep xs
  end.

Definition is_lower (a : ascii) : bool :=
  let n := nat_of_ascii a in (97 <=? n)%nat && (n <=? 122)%nat.

Definition is_upper (a : ascii) : bool :=
  let n := nat_of_ascii a in (65 <=? n)%nat && (n <=? 90)%nat.

(** [upper] and [lower] on the ASCII letters; other characters are kept.
    A string here is a string of bytes: this is [str] of Python 2 (in the C
    locale), and [str] of Python 3 on ASCII text. The properties of case
    below are stated for ASCII text ([isascii]). *)
Definition upper (a : ascii) : ascii :=
  if is_lower a then ascii_of_nat (nat_of_ascii a - 32) else a.

Definition lower (a : ascii) : ascii :=
  if is_upper a then ascii_of_nat (nat_of_ascii a + 32) else a.

Fixpoint lower_all (s : string) : string :=
  match s with
  | EmptyString => EmptyString
  | String a s' => String (lower a) (lower_all s')
  end.

(** [s.capitalize()]: first character upper-cased, the rest lower-cased. *)
Definition capitalize (s : string) : string :=
  match s with
  | EmptyString => EmptyString
  | String a s' => String (upper a) (lower_all s')
  end.

(** [string.capwords(s, sep)] with an explicit one-character separator:
    [sep.join(x.capitalize() for x in s.split(sep))]. *)
Definition capwords (s : string) (sep : ascii) : string :=
  join (String sep EmptyString) (map capitalize (split sep s)).

(** [c in s]. *)
Fixpoint contains (c : ascii) (s : string) : bool :=
  match s with
  | EmptyString => false
  | String a s' => bool_decide (a = c) || contains c s'
  end.

(** [s.isascii()]: every character is below 128. *)
Fixpoint isascii (s : string) : bool :=
  match s with
  | EmptyString => true
  | String a s' => (nat_of_ascii a <? 128)%nat && isascii s'
  end.

(** Truth value of a string in a condition: only the empty one is false. *)
Definition truthy (s : string) : bool :=
  match s with
  | EmptyString => false
  | String _ _ => true
  end.

End PyStr.

(** ** Target resolver (lines 21-30)

    [__version__] is imported from the [cntk] package; it is an argument
    here. *)

Definition module_is_unreleased (cntk_version : string) : bool :=
  PyStr.endswith cntk_version "+".

Definition default_sample_url (cntk_version : string) : string :=
  let version := cntk_version in
  let version := if module_is_unreleased cntk_version then PyStr.drop_last version else version in
  let version := PyStr.replace "." "-" version in
  let version := PyStr.capwords version "-" in
  "https://cntk.ai/Samples/CNTK-Samples-" +:+ version +:+ ".zip".

(** ** Part 2. The world around the installer *)

(** *** The file system, as the [os] module shows it

    A path names a regular file, a directory with its listing, or a symbolic
    link. Paths are kept as they are spelled. A file can be one that the
    process may not unlink (its directory is not writable; on Windows the
    file is read-only or in use), a directory one that it may not list. *)

Inductive node : Type :=
| File (data : string)
| Dir (entries : list string)
| Link (target : string)
| LockedFile (data : string)
| LockedDir (entries : list string).

Module os.

(** Longest chain of symbolic links a lookup follows before it gives up. *)
Definition max_hops : nat := 40.

(** [os.lstat]: the node a path names, links not followed. *)
Definition lstat (fs : gmap string node) (p : string) : option node := fs !! p.

Fixpoint follow (hops : nat) (fs : gmap string node) (p : string) : option node :=
  match fs !! p with
  | Some (Link target) =>
      match hops with
      | O => None
      | S hops' => follow hops' fs target
      end
  | found => found
  end.

(** [os.stat]: the node a path names, links followed. *)
Definition stat (fs : gmap string node) (p : string) : option node :=
  follow max_hops fs p.

(** [os.path.lexists]: true for broken links too. *)
Definition path_lexists (p : string) (fs : gmap string node) : bool :=
  match lstat fs p with Some _ => true | None => false end.

Definition path_isdir (p : string) (fs : gmap string node) : bool :=
  match stat fs p with Some (Dir _) | Some (LockedDir _) => true | _ => false end.

Definition path_isfile (p : string) (fs : gmap string node) : bool :=
  match stat fs p with Some (File _) | Some (LockedFile _) => true | _ => false end.

Definition path_islink (p : string) (fs : gmap string node) : bool :=
  match lstat fs p with Some (Link _) => true | _ => false end.

Inductive error : Type :=
| FileNotFoundError (p : string)
| IsADirectoryError (p : string)
| NotADirectoryError (p : string)
| PermissionError (p : string).

(** [os.listdir]: the entries of a directory; an error for a missing
    path, for what is no directory and for a directory that may not be
    listed. *)
Definition listdir (p : string) (fs : gmap string node) : error + list string :=
  match stat fs p with
  | Some (Dir entries) => inr entries
  | Some (LockedDir _) => inl (PermissionError p)
  | Some _ => inl (NotADirectoryError p)
  | None => inl (FileNotFoundError p)
  end.

(** [os.path.join(a, b)] of [posixpath], for a [b] that is not absolute. *)
Definition path_join (a b : string) : string :=
  if negb (PyStr.truthy a) || PyStr.endswith a "/" then a +:+ b
  else a +:+ "/" +:+ b.

(** [os.remove]: unlinks a file or a link (the link itself); a missing
    path, a directory and a file that may not be unlinked are errors and
    leave the file system as it is. The listing kept with the parent
    directory is left alone: nothing reads it after a removal. *)
Definition remove (p : string) (fs : gmap string node) : error + gmap string node :=
  match lstat fs p with
  | None => inl (FileNotFoundError p)
  | Some (Dir _) | Some (LockedDir _) => inl (IsADirectoryError p)
  | Some (LockedFile _) => inl (PermissionError p)
  | Some (File _) | Some (Link _) => inr (delete p fs)
  end.

End os.

(** *** Library collaborators

    [urlretrieve], [zipfile], [pip], [textwrap] and [argparse] are not
    part of this repository. They act on the file system and answer with
    a value or with an exception of their own. *)

Inductive reply (A : Type) : Type :=
| Returned (a : A)
| Failed (why : string).
Arguments Returned {A} a.
Arguments Failed {A} why.

(** What [argparse] makes of one command line for the three options the
    entry point declares: the options used, in order, or an exit (usage
    error, [-h]). The lists and the way they are stored are those of the
    source. *)
Inductive option_use : Type :=
| Use_url (value : string)
| Use_dir (value : string)
| Use_quiet.

Inductive scan : Type :=
| Uses (us : list option_use)
| Exits (code : Z).

Class Host : Type := {
  (** [from cntk import __version__] *)
  cntk_version : string;
  (** [textwrap.fill(text, subsequent_indent=' ' * 4)] *)
  textwrap_fill : string -> string;
  (** [urlretrieve(url)]: the name of the local file it wrote *)
  urlretrieve : string -> gmap string node -> reply string * gmap string node;
  (** [zipfile.ZipFile(name, 'r')]: the members of the archive *)
  ZipFile : string -> gmap string node -> reply (list (string * string));
  (** [zip_file.extractall(localdir)] *)
  extractall : list (string * string) -> string -> gmap string node -> reply unit * gmap string node;
  (** [pip.main(args)]: its exit status *)
  pip_main : list string -> gmap string node -> reply Z * gmap string node;
  (** what [argparse] makes of a command line that is not in the plain
      form read by [plain_options] *)
  argparse_scan : list string -> scan
}.

(** *** Exceptions, observable events and the state *)

Inductive exn : Type :=
| ValueError (msg : string)            (* raised by the installer itself *)
| FetchError (why : string)            (* out of [urlretrieve] *)
| ExtractionError (why : string)       (* out of [ZipFile] or [extractall] *)
| PipError (why : string)              (* out of [pip.main] *)
| OSError (e : os.error)               (* out of [os.listdir] or [os.remove] *)
| SystemExit (code : Z).               (* out of [parse_args] *)

Inductive event : Type :=
| Call_print (objects : list string)        (* [print(a, b)] *)
| Call_urlretrieve (url : string)
| Call_ZipFile (name : string)
| Call_extractall (localdir : string)
| Call_pip_main (args : list string)
| Call_remove (path : string).

(** The file system, the calls made so far (oldest first), and the one
    local variable that the [finally] block reads. *)
Record state : Type := State {
  fs : gmap string node;
  trace : list event;
  zip_filename : option string
}.

Inductive outcome (A : Type) : Type :=
| Return (a : A)
| Raise (e : exn).
Arguments Return {A} a.
Arguments Raise {A} e.

Definition Py (A : Type) : Type := state -> outcome A * state.

Definition ret {A} (a : A) : Py A := fun s => (Return a, s).

Definition raise {A} (e : exn) : Py A := fun s => (Raise e, s).

Definition bind {A B} (c : Py A) (k : A -> Py B) : Py B :=
  fun s => match c s with
           | (Return a, s') => k a s'
           | (Raise e, s') => (Raise e, s')
           end.

(** [try: body finally: handler]. The handler always runs; if it raises,
    its exception replaces whatever the body did. *)
Definition try_finally {A} (body : Py A) (handler : Py unit) : Py A :=
  fun s => match body s with
           | (r, s') =>
               match handler s' with
               | (Return _, s'') => (r, s'')
               | (Raise e, s'') => (Raise e, s'')
               end
           end.

Declare Scope py_scope.
Delimit Scope py_scope with py.
Bind Scope py_scope with Py.
Notation "x ← y ; z" := (bind y (fun x => z))
  (at level 20, y at level 100, z at level 200, only parsing) : py_scope.
Notation "x ;; z" := (bind x (fun _ => z))
  (at level 100, z at level 200, only parsing, right associativity) : py_scope.

Definition log (e : event) : Py unit :=
  fun s => (Return tt, State (fs s) (trace s ++ [e]) (zip_filename s)).

Definition read {A} (f : gmap string node -> A) : Py A :=
  fun s => (Return (f (fs s)), s).

Definition assign_zip_filename (v : option string) : Py unit :=
  fun s => (Return tt, State (fs s) (trace s) v).

Definition get_zip_filename : Py (option string) :=
  fun s => (Return (zip_filename s), s).

(** A collaborator's call: it changes the file system and returns or
    raises; [wrap] says which exception class its failures belong to. *)
Definition library {A} (wrap : string -> exn)
    (f : gmap string node -> reply A * gmap string node) : Py A :=
  fun s => match f (fs s) with
           | (Returned a, fs') => (Return a, State fs' (trace s) (zip_filename s))
           | (Failed why, fs') => (Raise (wrap why), State fs' (trace s) (zip_filename s))
           end.

(** A query of the [os] module that may raise. *)
Definition os_call {A} (f : gmap string node -> os.error + A) : Py A :=
  fun s => match f (fs s) with
           | inr a => (Return a, s)
           | inl e => (Raise (OSError e), s)
           end.

Definition os_remove (p : string) : Py unit :=
  (log (Call_remove p) ;;
   fun s => match os.remove p (fs s) with
            | inr fs' => (Return tt, State fs' (trace s) (zip_filename s))
            | inl e => (Raise (OSError e), s)
            end)%py.

(** ** Part 3. The installer (lines 32-73) and the entry point (lines 76-89) *)

Section Installer.
Context `{Host}.

Definition newline : string := String "010" EmptyString.

(** Line 44: [os.path.lexists(localdir) and not (os.path.isdir(localdir)
    and len(os.listdir(localdir)) == 0)], evaluated from left to right:
    [os.listdir] is called only for an existing directory, and its error
    is the error of the whole test. *)
Definition destination_refused (localdir : string) (fs : gmap string node)
    : os.error + bool :=
  if os.path_lexists localdir fs then
    if os.path_isdir localdir fs then
      match os.listdir localdir fs with
      | inr entries => inr (negb (length entries =? 0)%nat)
      | inl e => inl e
      end
    else inr true
  else inr false.

Definition InvalidDestination : exn :=
  ValueError "localdir parameter must be non-existing or point to an empty directory".

(** Lines 47-49. [print(x, "\n")] is recorded with its two objects. *)
Definition show_message (quiet : bool) (text : string) : Py unit :=
  if negb quiet then log (Call_print [textwrap_fill text; newline]) else ret tt.

Definition unreleased_warning : string :=
  "WARNING: You are not on a released CNTK module version. "
  +:+ "When running into problems running samples, please check "
  +:+ "https://github.com/Microsoft/CNTK for updated versions".

Definition missing_requirements_warning (requirements_file : string) : string :=
  "WARNING: file " +:+ requirements_file
  +:+ " does not exist, modules to run the samples may be missing".

(** [not url], for an argument that is [None] or a string. *)
Definition not_url (url : option string) : bool :=
  match url with
  | None => true
  | Some u => negb (PyStr.truthy u)
  end.

(** Lines 59-71, the body of the [try]. *)
Definition download_and_unpack (url localdir : string) (quiet : bool) : Py unit :=
  (show_message quiet ("INFO: retrieving " +:+ url) ;;
   log (Call_urlretrieve url) ;;
   name ← library FetchError (urlretrieve url) ;
   assign_zip_filename (Some name) ;;
   show_message quiet ("INFO: unzipping to directory " +:+ localdir) ;;
   log (Call_ZipFile name) ;;
   zip_file ← library ExtractionError (fun fs => (ZipFile name fs, fs)) ;
   log (Call_extractall localdir) ;;
   library ExtractionError (extractall zip_file localdir) ;;
   let requirements_file := os.path_join localdir "requirements.txt" in
   present ← read (os.path_isfile requirements_file) ;
   if present : bool then
     show_message quiet "INFO: installing requirements" ;;
     log (Call_pip_main ["install"; "-r"; requirements_file]) ;;
     _ ← library PipError (pip_main ["install"; "-r"; requirements_file]) ;
     ret tt
   else
     show_message quiet (missing_requirements_warning requirements_file))%py.

(** Lines 72-73, the [finally]: [if zip_filename: os.remove(zip_filename)]. *)
Definition cleanup : Py unit :=
  (name ← get_zip_filename ;
   match name with
   | Some n => if PyStr.truthy n then os_remove n else ret tt
   | None => ret tt
   end)%py.

Definition install_samples (url : option string) (localdir : string) (quiet : bool) : Py unit :=
  (refused ← os_call (destination_refused localdir) ;
   if refused : bool then raise InvalidDestination
   else
     url ← (if not_url url then
              (if module_is_unreleased cntk_version
               then show_message quiet unreleased_warning
               else ret tt) ;;
              ret (default_sample_url cntk_version)
            else ret (default EmptyString url)) ;
     assign_zip_filename None ;;
     try_finally (download_and_unpack url localdir quiet) cleanup)%py.

(** *** Command line *)





(** An argument that [argparse] may take for an option and not for a
    value. *)
Definition starts_with_dash (arg : string) : bool :=
  match arg with
  | String "-" _ => true
  | _ => false
  end.





End Installer.

(** ** Stand-ins for the collaborators

    Small executable hosts, in the manner of the mocks a test of the
    installer would use. *)

Module Mock.

Definition tmp_name : string := "/tmp/tmpq0x1".

(** A download that goes through. *)
Definition fetch_ok (url : string) (fs : gmap string node) : reply string * gmap string node :=
  (Returned tmp_name, <[tmp_name := File "PK"]> fs).

(** A download that breaks off: [urlretrieve] has written part of its
    temporary file and raises. *)
Definition fetch_partial (url : string) (fs : gmap string node) : reply string * gmap string node :=
  (Failed "ContentTooShortError", <[tmp_name := File "P"]> fs).

Definition open_zip (members : list (string * string)) (name : string)
    (fs : gmap string node) : reply (list (string * string)) :=
  match fs !! name with
  | Some (File _) => Returned members
  | _ => Failed "BadZipFile"
  end.

Definition extract (members : list (string * string)) (localdir : string)
    (fs : gmap string node) : reply unit * gmap string node :=
  (Returned tt,
   foldr (fun m acc => <[os.path_join localdir m.1 := File m.2]> acc)
         (<[localdir := Dir (map fst members)]> fs) members).

(** An archive that cannot be unpacked. *)
Definition extract_broken (members : list (string * string)) (localdir : string)
    (fs : gmap string node) : reply unit * gmap string node :=
  (Failed "BadZipFile", fs).

Definition starts_with_dash (s : string) : bool :=
  match s with
  | String "-" _ => true
  | _ => false
  end.

(** The option strings spelled in full, each value in an argument of
    its own. *)
Fixpoint scan_plain (argv : list string) : scan :=
  match argv with
  | [] => Uses []
  | flag :: rest =>
      if bool_decide (flag = "-q" ∨ flag = "--quiet") then
        match scan_plain rest with
        | Uses us => Uses (Use_quiet :: us)
        | Exits code => Exits code
        end
      else if bool_decide (flag = "-h" ∨ flag = "--help") then Exits 0
      else
        match rest with
        | [] => Exits 2
        | value :: rest' =>
            if starts_with_dash value then Exits 2
            else if bool_decide (flag = "-u" ∨ flag = "--url") then
              match scan_plain rest' with
              | Uses us => Uses (Use_url value :: us)
              | Exits code => Exits code
              end
            else if bool_decide (flag = "-d" ∨ flag = "--dir") then
              match scan_plain rest' with
              | Uses us => Uses (Use_dir value :: us)
              | Exits code => Exits code
              end
            else Exits 2
        end
  end.

Definition host (version : string)
    (fetch : string -> gmap string node -> reply string * gmap string node)
    (members : list (string * string))
    (unpack : list (string * string) -> string -> gmap string node -> reply unit * gmap string node)
    (pip_status : reply Z) : Host :=
  {| cntk_version := version;
     textwrap_fill := fun text => text;
     urlretrieve := fetch;
     ZipFile := open_zip members;
     extractall := unpack;
     pip_main := fun _ fs => (pip_status, fs);
     argparse_scan := scan_plain |}.

Definition with_requirements : list (string * string) :=
  [("requirements.txt", "numpy"); ("data.txt", "1 2 3")].

Definition without_requirements : list (string * string) :=
  [("data.txt", "1 2 3")].

Definition empty_state : state := State ∅ [] None.

End Mock.

(** The hosts the runs below use. *)
Module Scenario.
Import Mock.

(** An unreleased module; the archive has a [requirements.txt]; [pip]
    reports failure with exit status 1. *)
Definition unreleased_host : Host :=
  host "2.5.1+" fetch_ok with_requirements extract (Returned 1%Z).

(** A released module; the archive has no [requirements.txt]. *)
Definition plain_host : Host :=
  host "2.5.1" fetch_ok without_requirements extract (Returned 0%Z).

(** The archive cannot be unpacked. *)
Definition broken_archive_host : Host :=
  host "2.5.1" fetch_ok with_requirements extract_broken (Returned 0%Z).

(** The download breaks off after part of the file has been written. *)
Definition partial_download_host : Host :=
  host "2.5.1" fetch_partial with_requirements extract (Returned 0%Z).

(** What was downloaded is no archive. *)
Definition not_an_archive_host : Host :=
  {| cntk_version := "2.5.1";
     textwrap_fill := fun text => text;
     urlretrieve := fetch_ok;
     ZipFile := fun _ _ => Failed "BadZipFile";
     extractall := extract;
     pip_main := fun _ fs => (Returned 0%Z, fs);
     argparse_scan := scan_plain |}.

(** [pip.main] raises instead of returning a status. *)
Definition pip_raising_host : Host :=
  host "2.5.1" fetch_ok with_requirements extract (Failed "SystemExit").

Definition downloaded : gmap string node := <[tmp_name := File "PK"]> ∅.

Definition occupied_state : state := State {["./out" := Dir ["a.txt"]]} [] None.

(** The destination is a directory with an entry that may not be listed. *)
Definition unreadable_state : state := State {["./out" := LockedDir ["a.txt"]]} [] None.

End Scenario.

(** ** Vocabulary of the properties *)

(** A component made of decimal digits only. *)
Fixpoint all_digits (s : string) : bool :=
  match s with
  | EmptyString => true
  | String a s' =>
      (48 <=? nat_of_ascii a)%nat && (nat_of_ascii a <=? 57)%nat && all_digits s'
  end.

(** Title case in the words of the specification, from the two alphabets:
    the first character of a component in upper case, the others in lower
    case. *)
Definition ascii_lowercase : string := "abcdefghijklmnopqrstuvwxyz".
Definition ascii_uppercase : string := "ABCDEFGHIJKLMNOPQRSTUVWXYZ".

Fixpoint partner (from to : string) (a : ascii) : ascii :=
  match from, to with
  | String f from', String t to' => if bool_decide (a = f) then t else partner from' to' a
  | _, _ => a
  end.

Fixpoint spec_lower_case (s : string) : string :=
  match s with
  | EmptyString => EmptyString
  | String a s' => String (partner ascii_uppercase ascii_lowercase a) (spec_lower_case s')
  end.

Definition spec_title_case (component : string) : string :=
  match component with
  | EmptyString => EmptyString
  | String a rest =>
      String (partner ascii_lowercase ascii_uppercase a) (spec_lower_case rest)
  end.




(** A string without ASCII letters. *)
Fixpoint caseless (s : string) : bool :=
  match s with
  | EmptyString => true
  | String a s' => negb (PyStr.is_lower a) && negb (PyStr.is_upper a) && caseless s'
  end.

(** The version as [default_sample_url] reads it: without the marker. *)
Definition released_part (cntk_version : string) : string :=
  if module_is_unreleased cntk_version then PyStr.drop_last cntk_version else cntk_version.

(** The check in the words of the specification: the path exists, and it
    is not a directory or it is a directory whose listing is not empty. *)
Definition spec_invalid_destination (localdir : string) (fs : gmap string node) : Prop :=
  os.path_lexists localdir fs = true
  /\ (os.path_isdir localdir fs = false
      \/ (os.path_isdir localdir fs = true
          /\ exists entries, os.listdir localdir fs = inr entries /\ entries <> [])).

Section Vocabulary.
Context `{Host}.

(** What [show_message] adds to the trace. *)
Definition shown (quiet : bool) (text : string) : list event :=
  if quiet then [] else [Call_print [textwrap_fill text; newline]].

(** The URL the download uses. *)
Definition resolved_url (url : option string) : string :=
  if not_url url then default_sample_url cntk_version else default EmptyString url.

(** What is printed before the download starts. *)
Definition preamble (url : option string) (quiet : bool) : list event :=
  if not_url url && module_is_unreleased cntk_version
  then shown quiet unreleased_warning else [].

(** The events of the [try] body up to and including the fetch, and
    from there to the end of the extraction. *)
Definition fetch_events (u : string) (quiet : bool) : list event :=
  shown quiet ("INFO: retrieving " +:+ u) ++ [Call_urlretrieve u].

Definition unzip_events (name localdir : string) (quiet : bool) : list event :=
  shown quiet ("INFO: unzipping to directory " +:+ localdir) ++ [Call_ZipFile name].

(** The [try] body after [urlretrieve] has returned (lines 62-71). *)
Definition unpack (name localdir : string) (quiet : bool) : Py unit :=
  (show_message quiet ("INFO: unzipping to directory " +:+ localdir) ;;
   log (Call_ZipFile name) ;;
   zip_file ← library ExtractionError (fun fs => (ZipFile name fs, fs)) ;
   log (Call_extractall localdir) ;;
   library ExtractionError (extractall zip_file localdir) ;;
   let requirements_file := os.path_join localdir "requirements.txt" in
   present ← read (os.path_isfile requirements_file) ;
   if present : bool then
     show_message quiet "INFO: installing requirements" ;;
     log (Call_pip_main ["install"; "-r"; requirements_file]) ;;
     _ ← library PipError (pip_main ["install"; "-r"; requirements_file]) ;
     ret tt
   else
     show_message quiet (missing_requirements_warning requirements_file))%py.

(** The events of a run up to the end of a successful extraction. *)
Definition extraction_events (url : option string) (localdir : string) (quiet : bool)
    (name : string) : list event :=
  preamble url quiet ++ fetch_events (resolved_url url) quiet
  ++ unzip_events name localdir quiet ++ [Call_extractall localdir].

(** [keeps_zip c]: [c] does not assign the local variable [zip_filename]. *)
Definition keeps_zip {A} (c : Py A) : Prop :=
  forall s, zip_filename (c s).2 = zip_filename s.

(** [adds P c]: [c] only adds to the trace, and every event it adds
    satisfies [P]. *)
Definition adds {A} (P : event -> bool) (c : Py A) : Prop :=
  forall s, exists evs, trace (c s).2 = (trace s ++ evs)%list /\ forallb P evs = true.

Definition is_print (e : event) : bool :=
  match e with
  | Call_print _ => true
  | _ => false
  end.

(** [raises_only P c]: every exception that leaves [c] satisfies [P]. *)
Definition raises_only {A} (P : exn -> Prop) (c : Py A) : Prop :=
  forall s e, (c s).1 = Raise e -> P e.

(** The exceptions that come out of a collaborator or of [os.remove]. *)
Definition from_outside (e : exn) : Prop :=
  match e with
  | FetchError _ | ExtractionError _ | PipError _ | OSError _ => True
  | ValueError _ | SystemExit _ => False
  end.

(** The calls among some events: everything but what was printed. *)
Definition calls (evs : list event) : list event :=
  List.filter (fun e => negb (is_print e)) evs.

(** Two states that differ at most in what has been printed. *)
Definition same_but_output (s1 s2 : state) : Prop :=
  fs s1 = fs s2 /\ zip_filename s1 = zip_filename s2
  /\ calls (trace s1) = calls (trace s2).

(** Two computations that, from such states, end alike and in such states. *)
Definition alike {A} (c1 c2 : Py A) : Prop :=
  forall s1 s2, same_but_output s1 s2 ->
    (c1 s1).1 = (c2 s2).1 /\ same_but_output (c1 s1).2 (c2 s2).2.

(** The calls of the [try] body after the fetch, in the order of the
    source. *)
Definition unpack_calls (name localdir : string) : list event :=
  [Call_ZipFile name; Call_extractall localdir;
   Call_pip_main ["install"; "-r"; os.path_join localdir "requirements.txt"]].

End Vocabulary.

(** The same collaborators around another module version. *)
Definition with_version (version : string) (h : Host) : Host :=
  {| cntk_version := version;
     textwrap_fill := @textwrap_fill h;
     urlretrieve := @urlretrieve h;
     ZipFile := @ZipFile h;
     extractall := @extractall h;
     pip_main := @pip_main h;
     argparse_scan := @argparse_scan h |}.

(** ** Part 4. Properties *)

(** *** Strings *)

Section StringFacts.
Import PyStr.

Lemma append_nil_l (b : string) : EmptyString +:+ b = b.
Proof. reflexivity. Qed.

Lemma append_cons (x : ascii) (a b : string) : String x a +:+ b = String x (a +:+ b).
Proof. reflexivity. Qed.

Ltac str_simpl := simpl; rewrite ?append_cons, ?append_nil_l; simpl.

Lemma append_is_nil (a b : string) : a +:+ b = EmptyString -> b = EmptyString.
Proof. destruct a; [by rewrite append_nil_l | by rewrite append_cons]. Qed.

Lemma endswith_app_char (v : string) (c : ascii) :
  endswith (v +:+ String c EmptyString) c = true.
Proof.
  induction v as [|x v IH]; str_simpl.
  - by apply bool_decide_eq_true.
  - destruct (v +:+ String c EmptyString) eqn:E; [|done].
    by apply append_is_nil in E.
Qed.

Lemma drop_last_app_char (v : string) (c : ascii) :
  drop_last (v +:+ String c EmptyString) = v.
Proof.
  induction v as [|x v IH]; str_simpl; [done|].
  rewrite IH. destruct (v +:+ String c EmptyString) eqn:E; [|done].
  by apply append_is_nil in E.
Qed.

Lemma endswith_cons (x : ascii) (s : string) (c : ascii) :
  s ≠ EmptyString -> endswith (String x s) c = endswith s c.
Proof. by destruct s. Qed.

Lemma endswith_app_nonempty (a b : string) (c : ascii) :
  b ≠ EmptyString -> endswith (a +:+ b) c = endswith b c.
Proof.
  intros Hb. induction a as [|x a IH]; str_simpl; [done|].
  rewrite <- IH. apply endswith_cons. intros E. by apply append_is_nil in E.
Qed.

Lemma replace_app (old new : ascii) (a b : string) :
  replace old new (a +:+ b) = replace old new a +:+ replace old new b.
Proof. induction a as [|x a IH]; str_simpl; [done | by rewrite IH]. Qed.

Lemma replace_absent (old new : ascii) (s : string) :
  contains old s = false -> replace old new s = s.
Proof.
  induction s as [|x s IH]; simpl; [done|].
  intros [Hx Hs]%orb_false_elim. rewrite Hx. by rewrite IH.
Qed.

Lemma contains_app (c : ascii) (a b : string) :
  contains c (a +:+ b) = contains c a || contains c b.
Proof. induction a as [|x a IH]; str_simpl; [done | by rewrite IH, orb_assoc]. Qed.

Lemma contains_replace (old new : ascii) (s : string) :
  old ≠ new -> contains old (replace old new s) = false.
Proof.
  intros Hne. induction s as [|x s IH]; simpl; [done|].
  rewrite IH, orb_false_r.
  destruct (bool_decide (x = old)) eqn:E; [|done].
  apply bool_decide_eq_false. congruence.
Qed.

Lemma split_nonempty (sep : ascii) (s : string) : split sep s ≠ [].
Proof.
  induction s as [|x s IH]; simpl; [done|].
  destruct (bool_decide (x = sep)); [done|]. by destruct (split sep s).
Qed.

Lemma split_absent (sep : ascii) (w : string) :
  contains sep w = false -> split sep w = [w].
Proof.
  induction w as [|x w IH]; simpl; [done|].
  intros [Hx Hw]%orb_false_elim. rewrite Hx, IH; done.
Qed.

Lemma split_field (sep : ascii) (w rest : string) :
  contains sep w = false ->
  split sep (w +:+ String sep rest) = w :: split sep rest.
Proof.
  induction w as [|x w IH]; str_simpl.
  - intros _. by rewrite bool_decide_eq_true_2.
  - intros [Hx Hw]%orb_false_elim. rewrite Hx, IH; done.
Qed.

Lemma split_keeps_absent (c sep : ascii) (s : string) :
  contains c s = false -> Forall (fun w => contains c w = false) (split sep s).
Proof.
  induction s as [|x s IH]; simpl.
  - intros _. by constructor.
  - intros [Hx Hs]%orb_false_elim. specialize (IH Hs).
    destruct (bool_decide (x = sep)).
    + by constructor.
    + destruct (split sep s) as [|w ws]; [by repeat constructor; simpl; rewrite Hx|].
      inversion_clear IH. constructor; [|done]. simpl. by rewrite Hx.
Qed.

Lemma upper_is_dot (a : ascii) : bool_decide (upper a = "."%char) = bool_decide (a = "."%char).
Proof. destruct a as [[] [] [] [] [] [] [] []]; vm_compute; reflexivity. Qed.

Lemma lower_is_dot (a : ascii) : bool_decide (lower a = "."%char) = bool_decide (a = "."%char).
Proof. destruct a as [[] [] [] [] [] [] [] []]; vm_compute; reflexivity. Qed.

Lemma lower_all_keeps_dotfree (s : string) :
  contains "." (lower_all s) = contains "." s.
Proof. induction s as [|x s IH]; simpl; [done | by rewrite lower_is_dot, IH]. Qed.

Lemma capitalize_keeps_dotfree (s : string) :
  contains "." (capitalize s) = contains "." s.
Proof. destruct s; simpl; [done | by rewrite upper_is_dot, lower_all_keeps_dotfree]. Qed.

Lemma join_keeps_absent (c : ascii) (sep : string) (l : list string) :
  contains c sep = false ->
  Forall (fun w => contains c w = false) l ->
  contains c (join sep l) = false.
Proof.
  intros Hsep. induction 1 as [|w ws Hw Hws IH]; simpl; [done|].
  destruct ws as [|w' ws]; [done|].
  rewrite !contains_app, Hw, Hsep. exact IH.
Qed.

(** Whatever the version, the text put into the URL has no dot left. *)
Lemma capwords_replace_dotfree (s : string) :
  contains "." (capwords (replace "." "-" s) "-") = false.
Proof.
  unfold capwords. apply join_keeps_absent; [done|].
  apply Forall_fmap.
  eapply Forall_impl; [apply (split_keeps_absent "." "-"), contains_replace; done|].
  intros w Hw. simpl. by rewrite capitalize_keeps_dotfree.
Qed.

Lemma digit_case (a : ascii) :
  (48 <=? nat_of_ascii a)%nat && (nat_of_ascii a <=? 57)%nat = true ->
  upper a = a /\ lower a = a.
Proof. destruct a as [[] [] [] [] [] [] [] []]; vm_compute; intuition congruence. Qed.

Lemma all_digits_no_dash (s : string) : all_digits s = true -> contains "-" s = false.
Proof.
induction s as [|x s IH]; simpl; [done|].
intros [Hx Hs]%andb_true_iff. rewrite IH, orb_false_r by done.
apply bool_decide_eq_false. intros ->. discriminate Hx.
Qed.

Lemma capitalize_digits (s : string) : all_digits s = true -> capitalize s = s.
Proof.
  assert (Hl : forall t, all_digits t = true -> lower_all t = t).
  { induction t as [|x t IH]; simpl; [done|].
    intros [Hx Ht]%andb_true_iff. destruct (digit_case x Hx) as [_ ->]. by rewrite IH. }
  destruct s as [|x s]; simpl; [done|].
  intros [Hx Hs]%andb_true_iff. destruct (digit_case x Hx) as [-> _]. by rewrite Hl.
Qed.

End StringFacts.

(** *** The target resolver *)

Section TargetResolver.
Import PyStr.

Lemma endswith_after_char (x : ascii) (s : string) (c : ascii) :
  endswith (String x s) c = if truthy s then endswith s c else bool_decide (x = c).
Proof. by destruct s. Qed.

Lemma dotted_not_unreleased (a b c : string) :
  endswith c "+" = false ->
  module_is_unreleased (a +:+ "." +:+ b +:+ "." +:+ c) = false.
Proof.
  intros Hc. unfold module_is_unreleased.
  rewrite endswith_app_nonempty by done.
  change ("." +:+ b +:+ "." +:+ c) with (String "." (b +:+ String "." c)).
  rewrite endswith_after_char.
  destruct (truthy (b +:+ String "." c)) eqn:E.
  - rewrite endswith_app_nonempty by done.
    rewrite endswith_after_char. by destruct c.
  - destruct b; discriminate E.
Qed.

Lemma replace_dotted (a b c : string) :
  contains "." a = false -> contains "." b = false -> contains "." c = false ->
  replace "." "-" (a +:+ "." +:+ b +:+ "." +:+ c) = a +:+ "-" +:+ b +:+ "-" +:+ c.
Proof.
  intros Ha Hb Hc.
  rewrite !replace_app, (replace_absent _ _ a), (replace_absent _ _ b), (replace_absent _ _ c) by done.
  reflexivity.
Qed.

Lemma capwords_dashed (a b c : string) :
  contains "-" a = false -> contains "-" b = false -> contains "-" c = false ->
  capwords (a +:+ "-" +:+ b +:+ "-" +:+ c) "-"
  = capitalize a +:+ "-" +:+ capitalize b +:+ "-" +:+ capitalize c.
Proof.
  intros Ha Hb Hc. unfold capwords.
  change ("-" +:+ b +:+ "-" +:+ c) with (String "-" (b +:+ String "-" c)).
  rewrite (split_field "-" a) by done.
  rewrite (split_field "-" b) by done.
  rewrite (split_absent "-" c) by done.
  reflexivity.
Qed.

End TargetResolver.

(** The resolver on a few versions. *)
Example default_sample_url_2_5_1 :
  default_sample_url "2.5.1" = "https://cntk.ai/Samples/CNTK-Samples-2-5-1.zip".
Proof. reflexivity. Qed.

Example default_sample_url_2_5_1_plus :
  default_sample_url "2.5.1+" = "https://cntk.ai/Samples/CNTK-Samples-2-5-1.zip".
Proof. reflexivity. Qed.

Example default_sample_url_beta :
  default_sample_url "2.0.beta15.0" = "https://cntk.ai/Samples/CNTK-Samples-2-0-Beta15-0.zip".
Proof. reflexivity. Qed.

Example default_sample_url_rc :
  default_sample_url "2.0.RC1+" = "https://cntk.ai/Samples/CNTK-Samples-2-0-Rc1.zip".
Proof. reflexivity. Qed.

(** C4. Every version string ending in the marker ["+"] is reported as
    unreleased, and its default URL is computed from the version with the
    marker taken off: dots replaced by dashes, every dash-separated word
    capitalized, put into the fixed template. So the URL of [v+] is the
    URL of the released [v]. *)
Theorem unreleased_version_url (v : string) :
  module_is_unreleased (v +:+ "+") = true
  /\ default_sample_url (v +:+ "+")
     = "https://cntk.ai/Samples/CNTK-Samples-"
       +:+ PyStr.capwords (PyStr.replace "." "-" v) "-" +:+ ".zip"
  /\ (module_is_unreleased v = false ->
      default_sample_url (v +:+ "+") = default_sample_url v).
Proof.
  assert (Hm : module_is_unreleased (v +:+ "+") = true)
    by apply endswith_app_char.
  assert (Hu : default_sample_url (v +:+ "+")
               = "https://cntk.ai/Samples/CNTK-Samples-"
                 +:+ PyStr.capwords (PyStr.replace "." "-" v) "-" +:+ ".zip").
  { unfold default_sample_url. rewrite Hm. by rewrite drop_last_app_char. }
  split; [exact Hm|]. split; [exact Hu|].
  intros Hr. rewrite Hu. unfold default_sample_url. by rewrite Hr.
Qed.

Lemma case_by_alphabet (a : ascii) :
  PyStr.upper a = partner ascii_lowercase ascii_uppercase a
  /\ PyStr.lower a = partner ascii_uppercase ascii_lowercase a.
Proof. destruct a as [[] [] [] [] [] [] [] []]; vm_compute; split; reflexivity. Qed.

Lemma lower_all_lower_case (t : string) : PyStr.lower_all t = spec_lower_case t.
Proof.
  induction t as [|x t IH]; simpl; [done|].
  destruct (case_by_alphabet x) as [_ ->]. by rewrite IH.
Qed.

Lemma capitalize_title_case (w : string) : PyStr.capitalize w = spec_title_case w.
Proof.
  destruct w as [|x w]; simpl; [done|].
  destruct (case_by_alphabet x) as [-> _]. by rewrite lower_all_lower_case.
Qed.

(** C5. For an ASCII version [a.b.c] (components without dots, no marker
    at the end) the default URL is the fixed template around [V], where
    [V] is the components joined by dashes and capitalized word by word;
    [V] has no dot; when no component has a dash of its own, [V] is the
    three components, each in title case (first character in upper case,
    the others in lower case), joined by dashes; and for components made
    of digits [V] is the components themselves joined by dashes. *)
Theorem release_version_url (a b c : string) :
  PyStr.isascii a = true -> PyStr.isascii b = true -> PyStr.isascii c = true ->
  PyStr.contains "." a = false ->
  PyStr.contains "." b = false ->
  PyStr.contains "." c = false ->
  PyStr.endswith c "+" = false ->
  let V := PyStr.capwords (a +:+ "-" +:+ b +:+ "-" +:+ c) "-" in
  default_sample_url (a +:+ "." +:+ b +:+ "." +:+ c)
  = "https://cntk.ai/Samples/CNTK-Samples-" +:+ V +:+ ".zip"
  /\ PyStr.contains "." V = false
  /\ (PyStr.contains "-" a = false ->
      PyStr.contains "-" b = false ->
      PyStr.contains "-" c = false ->
      V = spec_title_case a +:+ "-" +:+ spec_title_case b +:+ "-" +:+ spec_title_case c)
  /\ (all_digits a = true -> all_digits b = true -> all_digits c = true ->
      V = a +:+ "-" +:+ b +:+ "-" +:+ c).
Proof.
  intros _ _ _ Ha Hb Hc Hplus V. subst V.
  split; [|split; [|split]].
  - unfold default_sample_url.
    rewrite dotted_not_unreleased by done.
    by rewrite replace_dotted.
  - rewrite <- (replace_dotted a b c) by done. apply capwords_replace_dotfree.
  - intros Da Db Dc. rewrite capwords_dashed by done.
    by rewrite !capitalize_title_case.
  - intros Da Db Dc.
    rewrite capwords_dashed by (by apply all_digits_no_dash).
    by rewrite !capitalize_digits.
Qed.

Lemma release_version_url_witness :
  (PyStr.isascii "2" = true /\ PyStr.isascii "0" = true /\ PyStr.isascii "rC1" = true
   /\ PyStr.contains "." "2" = false /\ PyStr.contains "." "0" = false
   /\ PyStr.contains "." "rC1" = false /\ PyStr.endswith "rC1" "+" = false)
  /\ default_sample_url "2.0.rC1" = "https://cntk.ai/Samples/CNTK-Samples-2-0-Rc1.zip"
  /\ PyStr.contains "." "2-0-Rc1" = false.
Proof.
  split; [repeat split; reflexivity|].
  pose proof (release_version_url "2" "0" "rC1"
                eq_refl eq_refl eq_refl eq_refl eq_refl eq_refl eq_refl)
    as (Hurl & Hdot & _).
  split; [exact Hurl | exact Hdot].
Defined.

(** *** How a run of the installer unfolds *)

Section Runs.
Context `{Host}.

Lemma state_eta (s : state) : State (fs s) (trace s) (zip_filename s) = s.
Proof. by destruct s. Qed.

Lemma show_message_run (quiet : bool) (text : string) (s : state) :
  show_message quiet text s
  = (Return tt, State (fs s) (trace s ++ shown quiet text) (zip_filename s)).
Proof.
  unfold show_message, shown. destruct quiet; simpl; [|done].
  by rewrite app_nil_r, state_eta.
Qed.

Lemma install_refused (url : option string) (localdir : string) (quiet : bool) (s : state) :
  destination_refused localdir (fs s) = inr true ->
  install_samples url localdir quiet s = (Raise InvalidDestination, s).
Proof.
  intros Hr. unfold install_samples, bind, os_call. by rewrite Hr.
Qed.

(** When [os.listdir] fails in the test of line 44, its error leaves and
    nothing else happens. *)
Lemma install_unreadable (url : option string) (localdir : string) (quiet : bool) (s : state)
    (e : os.error) :
  destination_refused localdir (fs s) = inl e ->
  install_samples url localdir quiet s = (Raise (OSError e), s).
Proof.
  intros Hr. unfold install_samples, bind, os_call. by rewrite Hr.
Qed.

Lemma install_accepted (url : option string) (localdir : string) (quiet : bool) (s : state) :
  destination_refused localdir (fs s) = inr false ->
  install_samples url localdir quiet s
  = try_finally (download_and_unpack (resolved_url url) localdir quiet) cleanup
      (State (fs s) (trace s ++ preamble url quiet) None).
Proof.
  intros Hr. unfold install_samples, bind at 1, os_call. rewrite Hr.
  unfold resolved_url, preamble.
  destruct (not_url url); simpl.
  - unfold bind, ret, assign_zip_filename.
    destruct (module_is_unreleased cntk_version).
    + by rewrite show_message_run.
    + simpl. by rewrite app_nil_r.
  - unfold bind, ret, assign_zip_filename. simpl. by rewrite app_nil_r.
Qed.

Lemma download_fetch_failed (u localdir : string) (quiet : bool) (s : state)
    (why : string) (fs1 : gmap string node) :
  urlretrieve u (fs s) = (Failed why, fs1) ->
  download_and_unpack u localdir quiet s
  = (Raise (FetchError why),
     State fs1 (trace s ++ fetch_events u quiet) (zip_filename s)).
Proof.
  intros Hf. unfold download_and_unpack, fetch_events, bind.
  rewrite show_message_run. unfold log, library. simpl.
  by rewrite Hf, app_assoc.
Qed.

Lemma download_fetched (u localdir : string) (quiet : bool) (s : state)
    (name : string) (fs1 : gmap string node) :
  urlretrieve u (fs s) = (Returned name, fs1) ->
  download_and_unpack u localdir quiet s
  = unpack name localdir quiet
      (State fs1 (trace s ++ fetch_events u quiet) (Some name)).
Proof.
  intros Hf. unfold download_and_unpack, fetch_events, bind at 1 2 3 4.
  rewrite show_message_run. unfold log at 1, library at 1, assign_zip_filename. simpl.
  by rewrite Hf, app_assoc.
Qed.

End Runs.

(** *** Two invariants of computations, proved piece by piece *)

Section Invariants.
Context `{Host}.

Lemma keeps_zip_ret {A} (a : A) : keeps_zip (ret a).
Proof. by intros s. Qed.

Lemma keeps_zip_raise {A} (e : exn) : keeps_zip (@raise A e).
Proof. by intros s. Qed.

Lemma keeps_zip_log (e : event) : keeps_zip (log e).
Proof. by intros s. Qed.

Lemma keeps_zip_read {A} (f : gmap string node -> A) : keeps_zip (read f).
Proof. by intros s. Qed.

Lemma keeps_zip_library {A} (wrap : string -> exn)
    (f : gmap string node -> reply A * gmap string node) : keeps_zip (library wrap f).
Proof. intros s. unfold library. by destruct (f (fs s)) as [[a|why] fs']. Qed.

Lemma keeps_zip_bind {A B} (c : Py A) (k : A -> Py B) :
  keeps_zip c -> (forall a, keeps_zip (k a)) -> keeps_zip (bind c k).
Proof.
  intros Hc Hk s. unfold bind. specialize (Hc s).
  destruct (c s) as [[a|e] s']; simpl in *; [|done].
  by rewrite Hk.
Qed.

Lemma keeps_zip_show_message (quiet : bool) (text : string) :
  keeps_zip (show_message quiet text).
Proof. intros s. by rewrite show_message_run. Qed.

Lemma keeps_zip_unpack (name localdir : string) (quiet : bool) :
  keeps_zip (unpack name localdir quiet).
Proof.
  unfold unpack.
  repeat lazymatch goal with
    | |- keeps_zip (bind _ _) => apply keeps_zip_bind; [|intros ?]
    | |- keeps_zip (show_message _ _) => apply keeps_zip_show_message
    | |- keeps_zip (log _) => apply keeps_zip_log
    | |- keeps_zip (library _ _) => apply keeps_zip_library
    | |- keeps_zip (read _) => apply keeps_zip_read
    | |- keeps_zip (ret _) => apply keeps_zip_ret
    | |- keeps_zip (if ?b then _ else _) => destruct b
    end.
Qed.

Lemma adds_nothing {A} (P : event -> bool) (c : Py A) :
  (forall s, trace (c s).2 = trace s) -> adds P c.
Proof. intros Hc s. exists []. by rewrite app_nil_r. Qed.

Lemma adds_library {A} (P : event -> bool) (wrap : string -> exn)
    (f : gmap string node -> reply A * gmap string node) : adds P (library wrap f).
Proof.
  apply adds_nothing. intros s. unfold library.
  by destruct (f (fs s)) as [[a|why] fs'].
Qed.

Lemma adds_os_call {A} (P : event -> bool) (f : gmap string node -> os.error + A) :
  adds P (os_call f).
Proof.
  apply adds_nothing. intros s. unfold os_call. by destruct (f (fs s)).
Qed.

Lemma adds_log (P : event -> bool) (e : event) : P e = true -> adds P (log e).
Proof. intros He s. exists [e]. simpl. by rewrite He. Qed.

Lemma adds_bind {A B} (P : event -> bool) (c : Py A) (k : A -> Py B) :
  adds P c -> (forall a, adds P (k a)) -> adds P (bind c k).
Proof.
  intros Hc Hk s. unfold bind. destruct (Hc s) as (evs & Ht & Hq).
  destruct (c s) as [[a|e] s']; simpl in *; [|by exists evs].
  destruct (Hk a s') as (evs' & Ht' & Hq').
  exists (evs ++ evs')%list. rewrite Ht', Ht, app_assoc. split; [done|].
  rewrite forallb_app. by rewrite Hq, Hq'.
Qed.

Lemma adds_try_finally {A} (P : event -> bool) (body : Py A) (handler : Py unit) :
  adds P body -> adds P handler -> adds P (try_finally body handler).
Proof.
  intros Hb Hh s. unfold try_finally. destruct (Hb s) as (evs & Ht & Hq).
  destruct (body s) as [r s']; simpl in *.
  destruct (Hh s') as (evs' & Ht' & Hq').
  exists (evs ++ evs')%list. rewrite forallb_app, Hq, Hq'. split; [|done].
  destruct (handler s') as [[u|e] s'']; simpl in *; by rewrite Ht', Ht, app_assoc.
Qed.

(** A message adds nothing when [quiet] is set, and a [Call_print] otherwise. *)
Lemma adds_show_message (P : event -> bool) (quiet : bool) (text : string) :
  (quiet = false -> P (Call_print [textwrap_fill text; newline]) = true) ->
  adds P (show_message quiet text).
Proof.
  intros HP. destruct quiet; [by apply adds_nothing|].
  apply adds_log. by apply HP.
Qed.

Lemma adds_os_remove (P : event -> bool) (p : string) :
  P (Call_remove p) = true -> adds P (os_remove p).
Proof.
  intros HP s. exists [Call_remove p]. unfold os_remove, bind, log. simpl.
  rewrite HP. by destruct (os.remove p (fs s)).
Qed.

Ltac adds_step :=
  lazymatch goal with
  | |- adds _ (bind _ _) => apply adds_bind; [|intros ?]
  | |- adds _ (try_finally _ _) => apply adds_try_finally
  | |- adds _ (show_message _ _) => apply adds_show_message; done
  | |- adds _ (os_remove _) => apply adds_os_remove; reflexivity
  | |- adds _ (log _) => apply adds_log; reflexivity
  | |- adds _ (library _ _) => apply adds_library
  | |- adds _ (os_call _) => apply adds_os_call
  | |- adds _ (if ?b then _ else _) => destruct b
  | |- adds _ (match ?o with Some _ => _ | None => _ end) => destruct o
  | |- adds _ _ => by apply adds_nothing
  end.

(** With [quiet] set, no step of [install_samples] prints. *)
Lemma install_samples_quiet (url : option string) (localdir : string) :
  adds (fun e => negb (is_print e)) (install_samples url localdir true).
Proof.
  unfold install_samples, download_and_unpack, cleanup.
  repeat adds_step.
Qed.

(** The trace only grows. *)
Lemma unpack_grows (name localdir : string) (quiet : bool) :
  adds (fun _ => true) (unpack name localdir quiet).
Proof. unfold unpack. repeat adds_step. Qed.

Lemma cleanup_grows : adds (fun _ => true) cleanup.
Proof. unfold cleanup. repeat adds_step. Qed.

End Invariants.

(** *** The body of the [try] and the [finally] block *)

Section TryFinally.
Context `{Host}.

Lemma try_finally_state {A} (body : Py A) (handler : Py unit) (s : state) :
  (try_finally body handler s).2 = (handler (body s).2).2.
Proof.
  unfold try_finally. destruct (body s) as [r s']. simpl.
  by destruct (handler s') as [[u|e] s''].
Qed.

Lemma try_finally_returns {A} (body : Py A) (handler : Py unit) (s : state) (a : A) :
  (try_finally body handler s).1 = Return a ->
  (body s).1 = Return a /\ (handler (body s).2).1 = Return tt.
Proof.
  unfold try_finally. destruct (body s) as [r s']. simpl.
  destruct (handler s') as [[[]|e] s'']; simpl; [done|discriminate].
Qed.

(** A body that returns hands its result over to the handler. *)
Lemma try_finally_after_return (body handler : Py unit) (s s' : state) :
  body s = (Return tt, s') -> try_finally body handler s = handler s'.
Proof.
  intros Hb. unfold try_finally. rewrite Hb.
  by destruct (handler s') as [[[]|e] s''].
Qed.

Lemma cleanup_nothing (s : state) :
  zip_filename s = None -> cleanup s = (Return tt, s).
Proof. intros Hz. unfold cleanup, bind, get_zip_filename. by rewrite Hz. Qed.

Lemma cleanup_named (s : state) (name : string) :
  zip_filename s = Some name -> PyStr.truthy name = true ->
  cleanup s
  = match os.remove name (fs s) with
    | inr fs' => (Return tt, State fs' (trace s ++ [Call_remove name]) (Some name))
    | inl e => (Raise (OSError e), State (fs s) (trace s ++ [Call_remove name]) (Some name))
    end.
Proof.
  intros Hz Ht. unfold cleanup, bind at 1, get_zip_filename. rewrite Hz, Ht.
  unfold os_remove, bind, log. simpl. rewrite Hz.
  by destruct (os.remove name (fs s)).
Qed.

(** After the [finally] block has run on a named file, [os.remove] was
    the last call made; if the block returned the path is free, and if it
    raised the error is that of [os.remove]. *)
Lemma cleanup_unlinks (s : state) (name : string) :
  zip_filename s = Some name -> PyStr.truthy name = true ->
  last (trace (cleanup s).2) = Some (Call_remove name)
  /\ ((cleanup s).1 = Return tt -> os.path_lexists name (fs (cleanup s).2) = false)
  /\ (forall e, (cleanup s).1 = Raise e -> exists oe, e = OSError oe).
Proof.
  intros Hz Ht. rewrite (cleanup_named s name Hz Ht).
  unfold os.remove, os.path_lexists, os.lstat.
  destruct (fs s !! name) as [[d|es|t|d|es]|] eqn:E; simpl;
    rewrite ?last_snoc, ?lookup_delete_eq; repeat split; try done;
    intros e [= <-]; by eexists.
Qed.

Section Unpacking.
Variables (name localdir : string) (quiet : bool) (s : state).
Variables (members : list (string * string)) (fs2 : gmap string node).
Hypothesis Hopen : ZipFile name (fs s) = Returned members.
Hypothesis Hextract : extractall members localdir (fs s) = (Returned tt, fs2).

Let requirements_file := os.path_join localdir "requirements.txt".

Lemma unpack_then_pip (answer : reply Z) (fs3 : gmap string node) :
  os.path_isfile requirements_file fs2 = true ->
  pip_main ["install"; "-r"; requirements_file] fs2 = (answer, fs3) ->
  unpack name localdir quiet s
  = (match answer with Returned _ => Return tt | Failed why => Raise (PipError why) end,
     State fs3
       (trace s ++ unzip_events name localdir quiet ++ [Call_extractall localdir]
        ++ shown quiet "INFO: installing requirements"
        ++ [Call_pip_main ["install"; "-r"; requirements_file]])
       (zip_filename s)).
Proof.
  intros Hreq Hpip. unfold unpack, unzip_events, bind.
  rewrite show_message_run. unfold log, library, read. simpl.
  rewrite Hopen. simpl. rewrite Hextract. simpl.
  fold requirements_file. rewrite Hreq.
  rewrite show_message_run. simpl. rewrite Hpip.
  rewrite <- !app_assoc. by destruct answer.
Qed.

Lemma unpack_without_requirements :
  os.path_isfile requirements_file fs2 = false ->
  unpack name localdir quiet s
  = (Return tt,
     State fs2
       (trace s ++ unzip_events name localdir quiet ++ [Call_extractall localdir]
        ++ shown quiet (missing_requirements_warning requirements_file))
       (zip_filename s)).
Proof.
  intros Hreq. unfold unpack, unzip_events, bind.
  rewrite show_message_run. unfold log, library, read. simpl.
  rewrite Hopen. simpl. rewrite Hextract. simpl.
  fold requirements_file. rewrite Hreq.
  rewrite show_message_run. simpl.
  by rewrite <- !app_assoc.
Qed.

End Unpacking.

End TryFinally.

(** *** Which exceptions can leave a computation *)

Section Exceptions.
Context `{Host}.

Lemma never_raises {A} (P : exn -> Prop) (c : Py A) :
  (forall s, exists a, (c s).1 = Return a) -> raises_only P c.
Proof. intros Hc s e He. destruct (Hc s) as [a Ha]. congruence. Qed.

Lemma raises_only_library {A} (P : exn -> Prop) (wrap : string -> exn)
    (f : gmap string node -> reply A * gmap string node) :
  (forall why, P (wrap why)) -> raises_only P (library wrap f).
Proof.
  intros Hw s e. unfold library.
  destruct (f (fs s)) as [[a|why] fs']; simpl; [done|].
  intros [= <-]. apply Hw.
Qed.

Lemma raises_only_os_remove (P : exn -> Prop) (p : string) :
  (forall e, P (OSError e)) -> raises_only P (os_remove p).
Proof.
  intros Hp s e. unfold os_remove, bind, log. simpl.
  destruct (os.remove p (fs s)); simpl; [|done].
  intros [= <-]. apply Hp.
Qed.

Lemma raises_only_bind {A B} (P : exn -> Prop) (c : Py A) (k : A -> Py B) :
  raises_only P c -> (forall a, raises_only P (k a)) -> raises_only P (bind c k).
Proof.
  intros Hc Hk s e. unfold bind. specialize (Hc s).
  destruct (c s) as [[a|e'] s']; simpl in *.
  - apply Hk.
  - intros [= <-]. by apply Hc.
Qed.

Lemma raises_only_try_finally {A} (P : exn -> Prop) (body : Py A) (handler : Py unit) :
  raises_only P body -> raises_only P handler -> raises_only P (try_finally body handler).
Proof.
  intros Hb Hh s e. unfold try_finally. specialize (Hb s).
  destruct (body s) as [r s']; simpl in *. specialize (Hh s').
  destruct (handler s') as [[u|e'] s'']; simpl in *.
  - apply Hb.
  - intros [= <-]. by apply Hh.
Qed.

Ltac raises_step :=
  lazymatch goal with
  | |- raises_only _ (bind _ _) => apply raises_only_bind; [|intros ?]
  | |- raises_only _ (try_finally _ _) => apply raises_only_try_finally
  | |- raises_only _ (library _ _) => apply raises_only_library; intros ?; exact I
  | |- raises_only _ (os_remove _) => apply raises_only_os_remove; intros ?; exact I
  | |- raises_only _ (show_message _ _) =>
      apply never_raises; intros ?; rewrite show_message_run; by eexists
  | |- raises_only _ (if ?b then _ else _) => destruct b
  | |- raises_only _ (match ?o with Some _ => _ | None => _ end) => destruct o
  | |- raises_only _ _ => apply never_raises; intros ?; by eexists
  end.

Lemma download_and_unpack_raises (u localdir : string) (quiet : bool) :
  raises_only from_outside (download_and_unpack u localdir quiet).
Proof. unfold download_and_unpack. repeat raises_step. Qed.

Lemma cleanup_raises : raises_only from_outside cleanup.
Proof. unfold cleanup. repeat raises_step. Qed.

(** Once the destination is accepted, [install_samples] raises nothing
    of its own. *)
Lemma accepted_raises_from_outside (url : option string) (localdir : string)
    (quiet : bool) (s : state) (e : exn) :
  destination_refused localdir (fs s) = inr false ->
  (install_samples url localdir quiet s).1 = Raise e -> from_outside e.
Proof.
  intros Hacc. rewrite install_accepted by done.
  apply raises_only_try_finally; [apply download_and_unpack_raises | apply cleanup_raises].
Qed.

End Exceptions.

(** *** The destination check *)

Lemma destination_refused_spec (localdir : string) (fs : gmap string node) :
  destination_refused localdir fs = inr true <-> spec_invalid_destination localdir fs.
Proof.
  unfold destination_refused, spec_invalid_destination.
  destruct (os.path_lexists localdir fs), (os.path_isdir localdir fs),
    (os.listdir localdir fs) as [e|[|x l]]; simpl;
    (split; [intros [= ] | intros Hx]); try subst;
    try (decompose [and or ex] Hx; congruence);
    repeat first [done | split | by left | right | by eexists].
Qed.

Lemma destination_accepted_spec (localdir : string) (fs : gmap string node) :
  destination_refused localdir fs = inr false <->
  (os.path_lexists localdir fs = false
   \/ (os.path_isdir localdir fs = true /\ os.listdir localdir fs = inr [])).
Proof.
  unfold destination_refused.
  destruct (os.path_lexists localdir fs), (os.path_isdir localdir fs),
    (os.listdir localdir fs) as [e|[|x l]]; simpl;
    (split; [intros [= ] | intros Hx]); try subst;
    try (decompose [and or ex] Hx; congruence);
    repeat first [done | split | by left | right | by eexists].
Qed.

Lemma destination_unreadable_spec (localdir : string) (fs : gmap string node) (e : os.error) :
  destination_refused localdir fs = inl e <->
  (os.path_lexists localdir fs = true /\ os.path_isdir localdir fs = true
   /\ os.listdir localdir fs = inl e).
Proof.
  unfold destination_refused.
  destruct (os.path_lexists localdir fs), (os.path_isdir localdir fs),
    (os.listdir localdir fs) as [e'|[|x l]]; simpl;
    (split; [intros [= ] | intros Hx]); try subst;
    try (decompose [and or ex] Hx; congruence);
    repeat first [done | split | by left | right | by eexists].
Qed.

(** *** The installer *)

Lemma default_sample_url_truthy (v : string) : PyStr.truthy (default_sample_url v) = true.
Proof. reflexivity. Qed.

Section Fetching.
Context `{Host}.

(** Once the destination is accepted, the fetch is made. *)
Lemma accepted_fetches (url : option string) (localdir : string) (quiet : bool) (s : state) :
  destination_refused localdir (fs s) = inr false ->
  In (Call_urlretrieve (resolved_url url))
     (trace (install_samples url localdir quiet s).2).
Proof.
  intros Hacc. rewrite install_accepted, try_finally_state by done.
  set (s0 := State (fs s) (trace s ++ preamble url quiet) None).
  destruct (cleanup_grows (download_and_unpack (resolved_url url) localdir quiet s0).2)
    as (evs' & -> & _).
  apply in_or_app. left.
  destruct (urlretrieve (resolved_url url) (fs s0)) as [[name|why] fs1] eqn:Hf.
  - rewrite (download_fetched _ _ _ _ _ _ Hf).
    match goal with |- context [unpack ?n ?l ?q ?st] =>
      destruct (unpack_grows n l q st) as (evs & -> & _) end.
    simpl. unfold fetch_events. rewrite !in_app_iff. simpl. tauto.
  - rewrite (download_fetch_failed _ _ _ _ _ _ Hf).
    simpl. unfold fetch_events. rewrite !in_app_iff. simpl. tauto.
Qed.

End Fetching.

(** C2, as the code has it. [install_samples] raises the
    invalid-destination [ValueError] exactly when the destination exists and
    is not a directory or is a directory whose listing has entries. For an
    absent destination and for a directory whose listing is empty the check
    passes, and the run goes on to the download. When the directory cannot
    be listed, the error of [os.listdir] leaves [install_samples] and
    nothing else happens. *)
Theorem invalid_destination_iff `{Host} (url : option string) (localdir : string)
    (quiet : bool) (s : state) :
  ((install_samples url localdir quiet s).1 = Raise InvalidDestination
   <-> spec_invalid_destination localdir (fs s))
  /\ ((os.path_lexists localdir (fs s) = false
       \/ (os.path_isdir localdir (fs s) = true /\ os.listdir localdir (fs s) = inr []))
      -> (install_samples url localdir quiet s).1 <> Raise InvalidDestination
         /\ In (Call_urlretrieve (resolved_url url))
              (trace (install_samples url localdir quiet s).2))
  /\ (forall e,
        os.path_lexists localdir (fs s) = true ->
        os.path_isdir localdir (fs s) = true ->
        os.listdir localdir (fs s) = inl e ->
        install_samples url localdir quiet s = (Raise (OSError e), s)).
Proof.
  assert (Hpass : destination_refused localdir (fs s) = inr false ->
                  (install_samples url localdir quiet s).1 <> Raise InvalidDestination).
  { intros Hacc He. by apply (accepted_raises_from_outside _ _ _ _ _ Hacc) in He. }
  split; [|split].
  - rewrite <- destination_refused_spec. split.
    + intros He. destruct (destination_refused localdir (fs s)) as [e|[|]] eqn:Hr.
      * by rewrite (install_unreadable _ _ _ _ e Hr) in He.
      * done.
      * by destruct (Hpass eq_refl).
    + intros Hr. by rewrite install_refused.
  - intros Hacc%destination_accepted_spec. split; [by apply Hpass|].
    by apply accepted_fetches.
  - intros e Hex Hdir Hlist. apply install_unreadable.
    by apply destination_unreadable_spec.
Qed.

(** C3. When the destination exists and is not a directory, or is a
    directory with entries, [install_samples] raises [ValueError] and leaves
    the state as it found it: the file system is untouched and the trace has
    no new event, so no fetch, no archive call, no [pip] call, no removal
    and no message. *)
Theorem refused_before_any_effect `{Host} (url : option string) (localdir : string)
    (quiet : bool) (s : state) :
  spec_invalid_destination localdir (fs s) ->
  install_samples url localdir quiet s = (Raise InvalidDestination, s).
Proof. intros Hr%destination_refused_spec. by apply install_refused. Qed.

(** C1, as the code has it. With the destination accepted: when
    [urlretrieve] returns the name of the file it wrote, [os.remove] on that
    name is the last call [install_samples] makes on every way out, and
    afterwards nothing exists under the name, unless the removal itself
    fails, and then its error is what [install_samples] raises. When
    [urlretrieve] raises, [install_samples] has no name to remove: it
    raises the same error and leaves the file system as [urlretrieve] left
    it. *)
Theorem downloaded_file_removed `{Host} (url : option string) (localdir : string)
    (quiet : bool) (s : state) :
  destination_refused localdir (fs s) = inr false ->
  match urlretrieve (resolved_url url) (fs s) with
  | (Returned name, _) =>
      PyStr.truthy name = true ->
      let r := install_samples url localdir quiet s in
      last (trace r.2) = Some (Call_remove name)
      /\ (os.path_lexists name (fs r.2) = false
          \/ exists e, r.1 = Raise (OSError e))
  | (Failed why, fs1) =>
      install_samples url localdir quiet s
      = (Raise (FetchError why),
         State fs1 (trace s ++ preamble url quiet ++ fetch_events (resolved_url url) quiet) None)
  end.
Proof.
  intros Hacc. rewrite install_accepted by done.
  set (s0 := State (fs s) (trace s ++ preamble url quiet) None).
  change (fs s) with (fs s0).
  destruct (urlretrieve (resolved_url url) (fs s0)) as [[name|why] fs1] eqn:Hf.
  - intros Hname r. subst r.
    set (body := download_and_unpack (resolved_url url) localdir quiet).
    assert (Hz : zip_filename (body s0).2 = Some name).
    { unfold body. rewrite (download_fetched _ _ _ _ _ _ Hf).
      by rewrite keeps_zip_unpack. }
    destruct (cleanup_unlinks _ _ Hz Hname) as (Hlast & Hfree & Herr).
    rewrite try_finally_state. split; [done|].
    unfold try_finally. destruct (body s0) as [rb sb]. simpl in *.
    destruct (cleanup sb) as [[[]|e] sc]; simpl in *.
    + left. by apply Hfree.
    + right. destruct (Herr e eq_refl) as [oe ->]. by exists oe.
  - unfold try_finally. rewrite (download_fetch_failed _ _ _ _ _ _ Hf).
    rewrite cleanup_nothing by done. simpl. by rewrite app_assoc.
Qed.

(** C8. With [quiet=True], whatever the URL, the destination, the state
    and the collaborators do, [install_samples] adds no [Call_print] to the
    trace. *)
Theorem quiet_prints_nothing `{Host} (url : option string) (localdir : string) (s : state) :
  exists evs,
    trace (install_samples url localdir true s).2 = (trace s ++ evs)%list
    /\ forall objects, ~ In (Call_print objects) evs.
Proof.
  destruct (install_samples_quiet url localdir s) as (evs & Ht & Hq).
  exists evs. split; [done|].
  intros objects Hin. rewrite forallb_forall in Hq. by apply Hq in Hin.
Qed.

(** C10. [None] and the empty string are the same to [install_samples]:
    the two runs are equal. Past the destination check such a run is the
    run on the default URL, after the unreleased-version warning when the
    module version is unreleased (printed unless [quiet]). *)
Theorem falsy_url_same `{Host} (localdir : string) (quiet : bool) (s : state) :
  install_samples None localdir quiet s = install_samples (Some EmptyString) localdir quiet s
  /\ install_samples None localdir quiet s
     = match destination_refused localdir (fs s) with
       | inl e => (Raise (OSError e), s)
       | inr true => (Raise InvalidDestination, s)
       | inr false =>
           install_samples (Some (default_sample_url cntk_version)) localdir quiet
             (State (fs s)
                (trace s ++ (if module_is_unreleased cntk_version
                             then shown quiet unreleased_warning else []))
                (zip_filename s))
       end.
Proof.
  split; [reflexivity|].
  destruct (destination_refused localdir (fs s)) as [e|[|]] eqn:Hr.
  - by apply install_unreadable.
  - by apply install_refused.
  - rewrite !install_accepted by done.
    unfold resolved_url, preamble, not_url. rewrite default_sample_url_truthy. simpl.
    by rewrite app_nil_r.
Qed.

(** *** After the extraction *)

Section AfterExtraction.
Context `{Host}.

Lemma cleanup_trace (s : state) :
  trace (cleanup s).2
  = (trace s ++ match zip_filename s with
                | Some n => if PyStr.truthy n then [Call_remove n] else []
                | None => []
                end)%list.
Proof.
  destruct (zip_filename s) as [n|] eqn:Hz.
  - destruct (PyStr.truthy n) eqn:Hn.
    + rewrite (cleanup_named _ _ Hz Hn). by destruct (os.remove n (fs s)).
    + unfold cleanup, bind, get_zip_filename. rewrite Hz, Hn. simpl. by rewrite app_nil_r.
  - rewrite cleanup_nothing by done. simpl. by rewrite app_nil_r.
Qed.

Lemma cleanup_raises_oserror (s : state) (e : exn) :
  (cleanup s).1 = Raise e -> exists oe, e = OSError oe.
Proof.
  unfold cleanup, bind, get_zip_filename. simpl.
  destruct (zip_filename s) as [n|]; [|done].
  destruct (PyStr.truthy n); [|done].
  unfold os_remove, bind, log. simpl.
  destruct (os.remove n (fs s)) as [oe|fs']; simpl; [|done].
  intros [= <-]. by exists oe.
Qed.

Lemma cleanup_removes_file (s : state) (name data : string) :
  zip_filename s = Some name -> PyStr.truthy name = true ->
  fs s !! name = Some (File data) ->
  cleanup s = (Return tt, State (delete name (fs s)) (trace s ++ [Call_remove name]) (Some name)).
Proof.
  intros Hz Hn Hf. rewrite (cleanup_named _ _ Hz Hn).
  unfold os.remove, os.lstat. by rewrite Hf.
Qed.

Variables (url : option string) (localdir : string) (quiet : bool) (s : state).
Variables (name : string) (fs1 : gmap string node).
Variables (members : list (string * string)) (fs2 : gmap string node).

Hypothesis Haccepted : destination_refused localdir (fs s) = inr false.
Hypothesis Hfetch : urlretrieve (resolved_url url) (fs s) = (Returned name, fs1).
Hypothesis Hopen : ZipFile name fs1 = Returned members.
Hypothesis Hextract : extractall members localdir fs1 = (Returned tt, fs2).

Lemma run_with_requirements (status : Z) (fs3 : gmap string node) :
  os.path_isfile (os.path_join localdir "requirements.txt") fs2 = true ->
  pip_main ["install"; "-r"; os.path_join localdir "requirements.txt"] fs2
    = (Returned status, fs3) ->
  install_samples url localdir quiet s
  = cleanup
      (State fs3
         (trace s ++ extraction_events url localdir quiet name
          ++ shown quiet "INFO: installing requirements"
          ++ [Call_pip_main ["install"; "-r"; os.path_join localdir "requirements.txt"]])
         (Some name)).
Proof.
  intros Hreq Hpip. rewrite install_accepted by done.
  apply try_finally_after_return.
  rewrite (download_fetched _ _ _ _ name fs1) by done.
  match goal with |- unpack _ _ _ ?st = _ =>
    rewrite (unpack_then_pip name localdir quiet st members fs2
               Hopen Hextract (Returned status) fs3 Hreq Hpip) end.
  unfold extraction_events. simpl. by rewrite <- !app_assoc.
Qed.

Lemma run_without_requirements :
  os.path_isfile (os.path_join localdir "requirements.txt") fs2 = false ->
  install_samples url localdir quiet s
  = cleanup
      (State fs2
         (trace s ++ extraction_events url localdir quiet name
          ++ shown quiet
               (missing_requirements_warning (os.path_join localdir "requirements.txt")))
         (Some name)).
Proof.
  intros Hreq. rewrite install_accepted by done.
  apply try_finally_after_return.
  rewrite (download_fetched _ _ _ _ name fs1) by done.
  match goal with |- unpack _ _ _ ?st = _ =>
    rewrite (unpack_without_requirements name localdir quiet st members fs2
               Hopen Hextract Hreq) end.
  unfold extraction_events. simpl. by rewrite <- !app_assoc.
Qed.

Lemma extraction_events_no_pip (args : list string) :
  ~ In (Call_pip_main args) (extraction_events url localdir quiet name).
Proof.
  unfold extraction_events, preamble, fetch_events, unzip_events, shown.
  destruct (not_url url && module_is_unreleased cntk_version), quiet;
    simpl; intuition discriminate.
Qed.

End AfterExtraction.

Lemma path_join_plain (localdir b : string) :
  PyStr.truthy localdir = true -> PyStr.endswith localdir "/" = false ->
  os.path_join localdir b = localdir +:+ "/" +:+ b.
Proof. intros Ht He. unfold os.path_join. by rewrite Ht, He. Qed.

(** C6. After a successful extraction with [requirements.txt] present
    under the destination, [install_samples] calls [pip.main] once, with
    [install -r] and the very path it tested, and whatever status [pip.main]
    returns the run goes on to the [finally] block with the body's normal
    result: only [os.remove] can still raise, and with the downloaded file
    in place [install_samples] returns. For a non-empty destination that
    does not end in a slash the path is [<destination>/requirements.txt]. *)
Theorem requirements_installed `{Host} (url : option string) (localdir : string)
    (quiet : bool) (s : state) (name : string) (fs1 : gmap string node)
    (members : list (string * string)) (fs2 : gmap string node)
    (status : Z) (fs3 : gmap string node) :
  destination_refused localdir (fs s) = inr false ->
  urlretrieve (resolved_url url) (fs s) = (Returned name, fs1) ->
  ZipFile name fs1 = Returned members ->
  extractall members localdir fs1 = (Returned tt, fs2) ->
  os.path_isfile (os.path_join localdir "requirements.txt") fs2 = true ->
  pip_main ["install"; "-r"; os.path_join localdir "requirements.txt"] fs2
    = (Returned status, fs3) ->
  let calls :=
    (extraction_events url localdir quiet name
     ++ shown quiet "INFO: installing requirements"
     ++ [Call_pip_main ["install"; "-r"; os.path_join localdir "requirements.txt"]])%list in
  let r := install_samples url localdir quiet s in
  r = cleanup (State fs3 (trace s ++ calls) (Some name))
  /\ (forall e, r.1 = Raise e -> exists oe, e = OSError oe)
  /\ (PyStr.truthy name = true ->
      forall data, fs3 !! name = Some (File data) ->
      r = (Return tt,
           State (delete name fs3) (trace s ++ calls ++ [Call_remove name]) (Some name)))
  /\ (PyStr.truthy localdir = true -> PyStr.endswith localdir "/" = false ->
      os.path_join localdir "requirements.txt" = localdir +:+ "/requirements.txt").
Proof.
  intros Hacc Hfetch Hopen Hextract Hreq Hpip calls r.
  assert (Hrun : r = cleanup (State fs3 (trace s ++ calls) (Some name))).
  { subst r calls.
    by rewrite (run_with_requirements url localdir quiet s name fs1 members fs2
                  Hacc Hfetch Hopen Hextract status fs3 Hreq Hpip). }
  split; [exact Hrun|]. split; [|split].
  - intros e. rewrite Hrun. apply cleanup_raises_oserror.
  - intros Hname data Hfile. rewrite Hrun.
    rewrite (cleanup_removes_file _ name data) by done.
    simpl. by rewrite <- !app_assoc.
  - apply path_join_plain.
Qed.

(** C7. After a successful extraction with no [requirements.txt] under
    the destination, [install_samples] prints the warning about the missing
    file unless [quiet], adds no [pip.main] call to the trace, and goes on
    to the [finally] block with the body's normal result: the missing file
    raises nothing, and with the downloaded file in place [install_samples]
    returns. *)
Theorem missing_requirements_warned `{Host} (url : option string) (localdir : string)
    (quiet : bool) (s : state) (name : string) (fs1 : gmap string node)
    (members : list (string * string)) (fs2 : gmap string node) :
  destination_refused localdir (fs s) = inr false ->
  urlretrieve (resolved_url url) (fs s) = (Returned name, fs1) ->
  ZipFile name fs1 = Returned members ->
  extractall members localdir fs1 = (Returned tt, fs2) ->
  os.path_isfile (os.path_join localdir "requirements.txt") fs2 = false ->
  let warning :=
    Call_print [textwrap_fill (missing_requirements_warning (os.path_join localdir "requirements.txt"));
           newline] in
  let calls :=
    (extraction_events url localdir quiet name ++ (if quiet then [] else [warning]))%list in
  let r := install_samples url localdir quiet s in
  r = cleanup (State fs2 (trace s ++ calls) (Some name))
  /\ (quiet = false -> In warning (trace r.2))
  /\ (forall args, In (Call_pip_main args) (trace r.2) -> In (Call_pip_main args) (trace s))
  /\ (forall e, r.1 = Raise e -> exists oe, e = OSError oe)
  /\ (PyStr.truthy name = true ->
      forall data, fs2 !! name = Some (File data) ->
      r = (Return tt,
           State (delete name fs2) (trace s ++ calls ++ [Call_remove name]) (Some name))).
Proof.
  intros Hacc Hfetch Hopen Hextract Hreq warning calls r.
  assert (Hrun : r = cleanup (State fs2 (trace s ++ calls) (Some name))).
  { subst r calls warning.
    by rewrite (run_without_requirements url localdir quiet s name fs1 members fs2
                  Hacc Hfetch Hopen Hextract Hreq). }
  split; [exact Hrun|]. split; [|split; [|split]].
  - intros ->. rewrite Hrun, cleanup_trace. subst calls. simpl.
    rewrite !in_app_iff. simpl. tauto.
  - intros args. rewrite Hrun, cleanup_trace. subst calls. simpl.
    rewrite !in_app_iff. intros [[Hin|[Hin|Hin]]|Hin]; [done| | |].
    + by apply extraction_events_no_pip in Hin.
    + destruct quiet; simpl in Hin; [done|]. subst warning. intuition discriminate.
    + destruct (PyStr.truthy name); simpl in Hin; intuition discriminate.
  - intros e. rewrite Hrun. apply cleanup_raises_oserror.
  - intros Hname data Hfile. rewrite Hrun.
    rewrite (cleanup_removes_file _ name data) by done.
    simpl. by rewrite <- !app_assoc.
Qed.

(** *** The command line *)

Section CommandLine.
Context `{Host}.





End CommandLine.


Lemma downloaded_file_removed_witness :
  destination_refused "./out" (fs Mock.empty_state) = inr false
  /\ last (trace (@install_samples Scenario.broken_archive_host
                    None "./out" false Mock.empty_state).2)
     = Some (Call_remove Mock.tmp_name)
  /\ os.path_lexists Mock.tmp_name
       (fs (@install_samples Scenario.broken_archive_host
              None "./out" false Mock.empty_state).2) = false.
Proof.
  split; [reflexivity|].
  pose proof (@downloaded_file_removed Scenario.broken_archive_host
                None "./out" false Mock.empty_state eq_refl) as Hw.
  destruct (Hw eq_refl) as (Hlast & [Hfree|[e He]]).
  - split; [exact Hlast | exact Hfree].
  - vm_compute in He. discriminate He.
Defined.

(** C1, as the specification has it, fails when the fetch breaks off:
    the destination is accepted and [urlretrieve] is called, it writes part
    of its temporary file and raises, [install_samples] raises the same
    error without any call of [os.remove], and the file that was not there
    before is there afterwards. *)
Lemma partial_download_left_behind :
  let r := @install_samples Scenario.partial_download_host
             None "./out" false Mock.empty_state in
  os.path_lexists Mock.tmp_name (fs Mock.empty_state) = false
  /\ In (Call_urlretrieve "https://cntk.ai/Samples/CNTK-Samples-2-5-1.zip") (trace r.2)
  /\ r.1 = Raise (FetchError "ContentTooShortError")
  /\ ~ In (Call_remove Mock.tmp_name) (trace r.2)
  /\ os.path_isfile Mock.tmp_name (fs r.2) = true.
Proof.
  vm_compute. repeat split; try reflexivity.
  - right. left. reflexivity.
  - intros [?|[?|[]]]; discriminate.
Qed.

(** C2, as stated, fails for a directory that may not be listed: the
    destination exists and is a directory with an entry, yet what
    [install_samples] raises is the error of [os.listdir], not the
    invalid-destination [ValueError]. *)
Lemma unreadable_destination_not_refused :
  let r := @install_samples Scenario.unreleased_host
             None "./out" false Scenario.unreadable_state in
  os.path_lexists "./out" (fs Scenario.unreadable_state) = true
  /\ os.path_isdir "./out" (fs Scenario.unreadable_state) = true
  /\ os.stat (fs Scenario.unreadable_state) "./out" = Some (LockedDir ["a.txt"])
  /\ r.1 = Raise (OSError (os.PermissionError "./out"))
  /\ r.1 <> Raise InvalidDestination.
Proof.
  vm_compute. repeat split; try reflexivity. discriminate.
Qed.

Lemma refused_before_any_effect_witness :
  spec_invalid_destination "./out" (fs Scenario.occupied_state)
  /\ @install_samples Scenario.unreleased_host None "./out" false Scenario.occupied_state
     = (Raise InvalidDestination, Scenario.occupied_state).
Proof.
  assert (Hocc : spec_invalid_destination "./out" (fs Scenario.occupied_state)).
  { split; [reflexivity|]. right. split; [reflexivity|].
    exists ["a.txt"]. split; [reflexivity | discriminate]. }
  split; [exact Hocc|].
  exact (@refused_before_any_effect Scenario.unreleased_host
           None "./out" false Scenario.occupied_state Hocc).
Defined.

Lemma requirements_installed_witness :
  let h := Scenario.unreleased_host in
  let fs2 := (Mock.extract Mock.with_requirements "./out" Scenario.downloaded).2 in
  (destination_refused "./out" (fs Mock.empty_state) = inr false
   /\ @urlretrieve h (@resolved_url h None) (fs Mock.empty_state)
      = (Returned Mock.tmp_name, Scenario.downloaded)
   /\ @ZipFile h Mock.tmp_name Scenario.downloaded = Returned Mock.with_requirements
   /\ @extractall h Mock.with_requirements "./out" Scenario.downloaded = (Returned tt, fs2)
   /\ os.path_isfile (os.path_join "./out" "requirements.txt") fs2 = true
   /\ @pip_main h ["install"; "-r"; os.path_join "./out" "requirements.txt"] fs2
      = (Returned 1%Z, fs2))
  /\ (@install_samples h None "./out" false Mock.empty_state).1 = Return tt
  /\ In (Call_pip_main ["install"; "-r"; "./out/requirements.txt"])
       (trace (@install_samples h None "./out" false Mock.empty_state).2).
Proof.
  intros h fs2.
  split; [repeat split; reflexivity|].
  destruct (@requirements_installed h None "./out" false Mock.empty_state
              Mock.tmp_name Scenario.downloaded Mock.with_requirements fs2 1%Z fs2
              eq_refl eq_refl eq_refl eq_refl eq_refl eq_refl)
    as (_ & _ & Hret & _).
  rewrite (Hret eq_refl "PK" eq_refl).
  split; [reflexivity|].
  vm_compute. tauto.
Defined.

Lemma missing_requirements_warned_witness :
  let h := Scenario.plain_host in
  let fs2 := (Mock.extract Mock.without_requirements "./out" Scenario.downloaded).2 in
  (destination_refused "./out" (fs Mock.empty_state) = inr false
   /\ @urlretrieve h (@resolved_url h None) (fs Mock.empty_state)
      = (Returned Mock.tmp_name, Scenario.downloaded)
   /\ @ZipFile h Mock.tmp_name Scenario.downloaded = Returned Mock.without_requirements
   /\ @extractall h Mock.without_requirements "./out" Scenario.downloaded = (Returned tt, fs2)
   /\ os.path_isfile (os.path_join "./out" "requirements.txt") fs2 = false)
  /\ (@install_samples h None "./out" false Mock.empty_state).1 = Return tt
  /\ In (Call_print
           ["WARNING: file ./out/requirements.txt does not exist, modules to run the samples may be missing";
            newline])
       (trace (@install_samples h None "./out" false Mock.empty_state).2).
Proof.
  intros h fs2.
  split; [repeat split; reflexivity|].
  destruct (@missing_requirements_warned h None "./out" false Mock.empty_state
              Mock.tmp_name Scenario.downloaded Mock.without_requirements fs2
              eq_refl eq_refl eq_refl eq_refl eq_refl)
    as (_ & Hwarn & _ & _ & Hret).
  split.
  - by rewrite (Hret eq_refl "PK" eq_refl).
  - exact (Hwarn eq_refl).
Defined.



(** ** More on the target resolver *)

Section VersionText.
Import PyStr.

Lemma append_empty_r (s : string) : s +:+ EmptyString = s.
Proof. induction s as [|x s IH]; [done|]. by rewrite append_cons, IH. Qed.

Lemma endswith_inv (s : string) (c : ascii) :
  endswith s c = true -> exists w, s = w +:+ String c EmptyString.
Proof.
  induction s as [|x s IH]; [done|].
  rewrite endswith_after_char. destruct (truthy s) eqn:Hs.
  - intros [w ->]%IH. by exists (String x w).
  - destruct s; [|done]. intros ->%bool_decide_eq_true. by exists EmptyString.
Qed.

Lemma join_split (sep : ascii) (s : string) :
  join (String sep EmptyString) (split sep s) = s.
Proof.
  induction s as [|x s IH]; [done|]. simpl.
  destruct (bool_decide (x = sep)) eqn:Hx.
  - apply bool_decide_eq_true in Hx as ->.
    pose proof (split_nonempty sep s) as Hne.
    simpl. destruct (split sep s) as [|w ws]; [done|].
    rewrite append_nil_l, append_cons, append_nil_l. by rewrite IH.
  - destruct (split sep s) as [|w ws] eqn:Hsp; [by destruct (split_nonempty sep s)|].
    simpl in *. destruct ws as [|w' ws].
    + by rewrite IH.
    + rewrite append_cons. by rewrite IH.
Qed.

Lemma case_facts (a : ascii) :
  lower (lower a) = lower a /\ upper (lower a) = upper a /\ lower (upper a) = lower a
  /\ bool_decide (lower a = "-"%char) = bool_decide (a = "-"%char)
  /\ bool_decide (lower a = "+"%char) = bool_decide (a = "+"%char)
  /\ (negb (is_lower a) && negb (is_upper a) = true -> upper a = a /\ lower a = a)
  /\ (negb (is_lower a) && negb (is_upper a) = true ->
      negb (is_lower "-") && negb (is_upper "-") = true).
Proof. destruct a as [[] [] [] [] [] [] [] []]; vm_compute; intuition congruence. Qed.

Lemma lower_all_app (a b : string) : lower_all (a +:+ b) = lower_all a +:+ lower_all b.
Proof. induction a as [|x a IH]; [done|]. rewrite append_cons. simpl. by rewrite IH. Qed.

Lemma lower_all_idem (s : string) : lower_all (lower_all s) = lower_all s.
Proof.
  induction s as [|x s IH]; simpl; [done|].
  destruct (case_facts x) as (-> & _). by rewrite IH.
Qed.

Lemma lower_all_capitalize (w : string) : lower_all (capitalize w) = lower_all w.
Proof.
  destruct w as [|x w]; simpl; [done|].
  destruct (case_facts x) as (_ & _ & -> & _). by rewrite lower_all_idem.
Qed.

Lemma capitalize_lower_all (w : string) : capitalize (lower_all w) = capitalize w.
Proof.
  destruct w as [|x w]; simpl; [done|].
  destruct (case_facts x) as (_ & -> & _). by rewrite lower_all_idem.
Qed.

Lemma lower_all_join (sep : string) (l : list string) :
  lower_all (join sep l) = join (lower_all sep) (map lower_all l).
Proof.
  induction l as [|w ws IH]; simpl; [done|].
  destruct ws as [|w' ws]; [done|].
  rewrite !lower_all_app. by rewrite IH.
Qed.

(** [capwords] changes nothing but the case of letters. *)
Lemma lower_all_capwords (s : string) : lower_all (capwords s "-") = lower_all s.
Proof.
  unfold capwords. rewrite lower_all_join, map_map.
  rewrite (map_ext _ lower_all) by (intros w; apply lower_all_capitalize).
  rewrite <- (lower_all_join "-"). by rewrite join_split.
Qed.

Lemma split_lower_all (s : string) :
  split "-" (lower_all s) = map lower_all (split "-" s).
Proof.
  induction s as [|x s IH]; simpl; [done|].
  destruct (case_facts x) as (_ & _ & _ & -> & _). rewrite IH.
  destruct (bool_decide (x = "-"%char)); [done|].
  by destruct (split "-" s).
Qed.

Lemma capwords_lower_all (s : string) : capwords (lower_all s) "-" = capwords s "-".
Proof.
  unfold capwords. rewrite split_lower_all, map_map.
  by rewrite (map_ext _ capitalize) by (intros w; apply capitalize_lower_all).
Qed.

Lemma replace_lower_all (s : string) :
  replace "." "-" (lower_all s) = lower_all (replace "." "-" s).
Proof.
  induction s as [|x s IH]; simpl; [done|]. rewrite IH, lower_is_dot.
  by destruct (bool_decide (x = "."%char)).
Qed.

Lemma endswith_lower_all (s : string) : endswith (lower_all s) "+" = endswith s "+".
Proof.
  induction s as [|x s IH]; [done|].
  change (lower_all (String x s)) with (String (lower x) (lower_all s)).
  rewrite !endswith_after_char, IH.
  destruct (case_facts x) as (_ & _ & _ & _ & -> & _). by destruct s.
Qed.

Lemma drop_last_lower_all (s : string) : drop_last (lower_all s) = lower_all (drop_last s).
Proof.
  induction s as [|x s IH]; [done|].
  destruct s as [|y s]; [done|].
  change (drop_last (lower_all (String x (String y s))))
    with (String (lower x) (drop_last (lower_all (String y s)))).
  by rewrite IH.
Qed.

Lemma released_part_lower_all (v : string) :
  released_part (lower_all v) = lower_all (released_part v).
Proof.
  unfold released_part, module_is_unreleased. rewrite endswith_lower_all.
  destruct (endswith v "+"); [apply drop_last_lower_all | done].
Qed.

Lemma caseless_capitalize (w : string) : caseless w = true -> capitalize w = w.
Proof.
  assert (Hl : forall t, caseless t = true -> lower_all t = t).
  { induction t as [|x t IH]; simpl; [done|].
    intros [Hx Ht]%andb_true_iff.
    destruct (case_facts x) as (_ & _ & _ & _ & _ & Hc & _).
    destruct (Hc Hx) as [_ ->]. by rewrite IH. }
  destruct w as [|x w]; simpl; [done|].
  intros [Hx Hw]%andb_true_iff.
  destruct (case_facts x) as (_ & _ & _ & _ & _ & Hc & _).
  destruct (Hc Hx) as [-> _]. by rewrite Hl.
Qed.

Lemma caseless_split (sep : ascii) (s : string) :
  caseless s = true -> Forall (fun w => caseless w = true) (split sep s).
Proof.
  induction s as [|x s IH]; simpl.
  - intros _. by constructor.
  - intros [Hx Hs]%andb_true_iff. specialize (IH Hs).
    destruct (bool_decide (x = sep)); [by constructor|].
    destruct (split sep s) as [|w ws].
    + constructor; [|done]. simpl. by rewrite Hx.
    + inversion_clear IH. constructor; [|done]. simpl. by rewrite Hx.
Qed.

Lemma caseless_capwords (s : string) : caseless s = true -> capwords s "-" = s.
Proof.
  intros Hs. unfold capwords.
  rewrite <- (join_split "-" s) at 2. f_equal.
  pose proof (caseless_split "-" s Hs) as Hall.
  induction Hall as [|w ws Hw _ IH]; simpl; [done|].
  by rewrite caseless_capitalize, IH.
Qed.

Lemma caseless_replace (s : string) : caseless s = true -> caseless (replace "." "-" s) = true.
Proof.
  induction s as [|x s IH]; simpl; [done|].
  intros [Hx Hs]%andb_true_iff. rewrite IH by done.
  destruct (bool_decide (x = "."%char)); [done | by rewrite Hx].
Qed.

Lemma caseless_drop_last (s : string) : caseless s = true -> caseless (drop_last s) = true.
Proof.
  induction s as [|x s IH]; [done|].
  destruct s as [|y s]; [done|].
  change (drop_last (String x (String y s))) with (String x (drop_last (String y s))).
  simpl caseless at 1. intros [Hx Hs]%andb_true_iff.
  change (caseless (String x (drop_last (String y s))))
    with (negb (is_lower x) && negb (is_upper x) && caseless (drop_last (String y s))).
  by rewrite Hx, IH.
Qed.

End VersionText.

(** X1. A version is reported as unreleased exactly when it is some text
    followed by the marker ["+"]; the empty version is released. *)
Theorem unreleased_iff_marker (v : string) :
  (module_is_unreleased v = true <-> exists w, v = w +:+ "+")
  /\ module_is_unreleased EmptyString = false.
Proof.
  split; [|done]. split.
  - apply endswith_inv.
  - intros [w ->]. apply endswith_app_char.
Qed.

(** X2. Whatever the ASCII version, with any number of components, the
    default URL is the fixed template around a text [V] that is the version
    without its marker and with dashes for dots, up to the case of letters;
    [V] has no dot, and for a version without letters it is that text
    itself. *)
Theorem url_version_text (v : string) :
  PyStr.isascii v = true ->
  exists V,
    default_sample_url v = "https://cntk.ai/Samples/CNTK-Samples-" +:+ V +:+ ".zip"
    /\ spec_lower_case V = spec_lower_case (PyStr.replace "." "-" (released_part v))
    /\ PyStr.contains "." V = false
    /\ (caseless v = true -> V = PyStr.replace "." "-" (released_part v)).
Proof.
  intros _.
  exists (PyStr.capwords (PyStr.replace "." "-" (released_part v)) "-").
  split; [reflexivity|].
  split; [rewrite <- !lower_all_lower_case; apply lower_all_capwords|].
  split; [apply capwords_replace_dotfree|].
  intros Hv. apply caseless_capwords, caseless_replace.
  unfold released_part. destruct (module_is_unreleased v); [by apply caseless_drop_last | done].
Qed.

Lemma url_version_text_witness :
  PyStr.isascii "2.0.rC1.4+" = true
  /\ exists V,
       default_sample_url "2.0.rC1.4+"
       = "https://cntk.ai/Samples/CNTK-Samples-" +:+ V +:+ ".zip"
       /\ spec_lower_case V = "2-0-rc1-4".
Proof.
  split; [reflexivity|].
  destruct (url_version_text "2.0.rC1.4+" eq_refl) as (V & Hurl & Hlower & _).
  exists V. split; [exact Hurl | exact Hlower].
Defined.

(** X3. The case of the letters in an ASCII version does not matter:
    versions that differ only in case have the same default URL. *)
Theorem url_ignores_case (v w : string) :
  PyStr.isascii v = true -> PyStr.isascii w = true ->
  spec_lower_case v = spec_lower_case w ->
  default_sample_url v = default_sample_url w.
Proof.
  assert (Hl : forall u, default_sample_url (PyStr.lower_all u) = default_sample_url u).
  { intros u. unfold default_sample_url.
    change (if module_is_unreleased (PyStr.lower_all u)
            then PyStr.drop_last (PyStr.lower_all u) else PyStr.lower_all u)
      with (released_part (PyStr.lower_all u)).
    rewrite released_part_lower_all, replace_lower_all, capwords_lower_all.
    reflexivity. }
  intros _ _ Hvw. rewrite <- !lower_all_lower_case in Hvw.
  by rewrite <- (Hl v), Hvw, Hl.
Qed.

Lemma url_ignores_case_witness :
  (PyStr.isascii "2.0.RC1" = true /\ PyStr.isascii "2.0.rc1" = true
   /\ spec_lower_case "2.0.RC1" = spec_lower_case "2.0.rc1")
  /\ default_sample_url "2.0.RC1" = default_sample_url "2.0.rc1".
Proof.
  split; [repeat split; reflexivity|]. by apply url_ignores_case.
Defined.

(** ** More on the installer *)

Section QuietFlag.
Context `{Host}.

Lemma calls_app (a b : list event) : calls (a ++ b) = (calls a ++ calls b)%list.
Proof. apply List.filter_app. Qed.

Lemma calls_shown (quiet : bool) (text : string) : calls (shown quiet text) = [].
Proof. by destruct quiet. Qed.

Lemma same_but_output_refl (s : state) : same_but_output s s.
Proof. by repeat split. Qed.

Lemma alike_pure {A} (c1 c2 : Py A) (a : outcome A) :
  (forall s, c1 s = (a, s)) -> (forall s, c2 s = (a, s)) -> alike c1 c2.
Proof. intros H1 H2 s1 s2 Hs. by rewrite H1, H2. Qed.

Lemma alike_log (e : event) : alike (log e) (log e).
Proof.
  intros s1 s2 (Hfs & Hz & Hc). repeat split; simpl; try done.
  by rewrite !calls_app, Hc.
Qed.

Lemma alike_show_message (q1 q2 : bool) (text : string) :
  alike (show_message q1 text) (show_message q2 text).
Proof.
  intros s1 s2 (Hfs & Hz & Hc). rewrite !show_message_run.
  repeat split; simpl; try done.
  by rewrite !calls_app, !calls_shown, Hc.
Qed.

Lemma alike_read {A} (f : gmap string node -> A) : alike (read f) (read f).
Proof. intros s1 s2 (Hfs & Hz & Hc). unfold read. simpl. by rewrite Hfs. Qed.

Lemma alike_os_call {A} (f : gmap string node -> os.error + A) : alike (os_call f) (os_call f).
Proof.
  intros s1 s2 (Hfs & Hz & Hc). unfold os_call. rewrite Hfs.
  by destruct (f (fs s2)).
Qed.

Lemma alike_assign (v : option string) : alike (assign_zip_filename v) (assign_zip_filename v).
Proof. intros s1 s2 (Hfs & Hz & Hc). by repeat split. Qed.

Lemma alike_get : alike get_zip_filename get_zip_filename.
Proof. intros s1 s2 (Hfs & Hz & Hc). unfold get_zip_filename. simpl. by rewrite Hz. Qed.

Lemma alike_library {A} (wrap : string -> exn)
    (f : gmap string node -> reply A * gmap string node) :
  alike (library wrap f) (library wrap f).
Proof.
  intros s1 s2 (Hfs & Hz & Hc). unfold library. rewrite Hfs.
  by destruct (f (fs s2)) as [[a|why] fs'].
Qed.

Lemma alike_os_remove (p : string) : alike (os_remove p) (os_remove p).
Proof.
  intros s1 s2 (Hfs & Hz & Hc). unfold os_remove, bind, log. simpl. rewrite Hfs.
  destruct (os.remove p (fs s2)); repeat split; simpl; try done;
    by rewrite !calls_app, Hc.
Qed.

Lemma alike_bind {A B} (c1 c2 : Py A) (k1 k2 : A -> Py B) :
  alike c1 c2 -> (forall a, alike (k1 a) (k2 a)) -> alike (bind c1 k1) (bind c2 k2).
Proof.
  intros Hc Hk s1 s2 Hs. unfold bind. destruct (Hc s1 s2 Hs) as [Hout Hst].
  destruct (c1 s1) as [[a|e] s1'], (c2 s2) as [[a'|e'] s2']; simpl in *;
    try discriminate Hout.
  - injection Hout as <-. by apply Hk.
  - injection Hout as <-. by split.
Qed.

Lemma alike_try_finally {A} (b1 b2 : Py A) (h1 h2 : Py unit) :
  alike b1 b2 -> alike h1 h2 -> alike (try_finally b1 h1) (try_finally b2 h2).
Proof.
  intros Hb Hh s1 s2 Hs. unfold try_finally. destruct (Hb s1 s2 Hs) as [Hout Hst].
  destruct (b1 s1) as [r1 s1'], (b2 s2) as [r2 s2']; simpl in *. subst r2.
  destruct (Hh s1' s2' Hst) as [Hout' Hst'].
  destruct (h1 s1') as [[u|e] s1''], (h2 s2') as [[u'|e'] s2'']; simpl in *;
    try discriminate Hout'; [by split | injection Hout' as <-; by split].
Qed.

Ltac alike_step :=
  lazymatch goal with
  | |- alike (bind _ _) (bind _ _) => apply alike_bind; [|intros ?]
  | |- alike (try_finally _ _) (try_finally _ _) => apply alike_try_finally
  | |- alike (show_message _ _) (show_message _ _) => apply alike_show_message
  | |- alike (os_remove _) (os_remove _) => apply alike_os_remove
  | |- alike (log _) (log _) => apply alike_log
  | |- alike (library _ _) (library _ _) => apply alike_library
  | |- alike (read _) (read _) => apply alike_read
  | |- alike (os_call _) (os_call _) => apply alike_os_call
  | |- alike (assign_zip_filename _) (assign_zip_filename _) => apply alike_assign
  | |- alike get_zip_filename get_zip_filename => apply alike_get
  | |- alike (ret ?a) (ret ?a) => by apply (alike_pure _ _ (Return a))
  | |- alike (raise ?e) (raise ?e) => by apply (alike_pure _ _ (Raise e))
  | |- alike (if ?b then _ else _) (if ?b then _ else _) => destruct b
  | |- alike (match ?o with Some _ => _ | None => _ end)
             (match ?o with Some _ => _ | None => _ end) => destruct o
  end.

Lemma install_samples_alike (url : option string) (localdir : string) (q1 q2 : bool) :
  alike (install_samples url localdir q1) (install_samples url localdir q2).
Proof.
  unfold install_samples, download_and_unpack, cleanup.
  repeat alike_step.
Qed.

End QuietFlag.

(** X4. The [quiet] flag changes nothing but the output: two runs that
    differ only in [quiet] end with the same result (return or the same
    exception), the same file system and the same calls in the same
    order. *)
Theorem quiet_only_silences `{Host} (url : option string) (localdir : string)
    (q1 q2 : bool) (s : state) :
  (install_samples url localdir q1 s).1 = (install_samples url localdir q2 s).1
  /\ fs (install_samples url localdir q1 s).2 = fs (install_samples url localdir q2 s).2
  /\ calls (trace (install_samples url localdir q1 s).2)
     = calls (trace (install_samples url localdir q2 s).2).
Proof.
  destruct (install_samples_alike url localdir q1 q2 s s (same_but_output_refl s))
    as (Hout & Hfs & _ & Hcalls).
  done.
Qed.

Section GivenUrl.
Context `{Host}.

(** Past the destination check a run starts with what is printed before
    the download, the announcement of the fetch and the fetch. *)
Lemma accepted_starts (url : option string) (localdir : string) (quiet : bool) (s : state) :
  destination_refused localdir (fs s) = inr false ->
  exists rest,
    trace (install_samples url localdir quiet s).2
    = (trace s ++ preamble url quiet ++ fetch_events (resolved_url url) quiet ++ rest)%list.
Proof.
  intros Hacc. rewrite install_accepted, try_finally_state by done.
  set (s0 := State (fs s) (trace s ++ preamble url quiet) None).
  destruct (cleanup_grows (download_and_unpack (resolved_url url) localdir quiet s0).2)
    as (evs' & -> & _).
  destruct (urlretrieve (resolved_url url) (fs s0)) as [[name|why] fs1] eqn:Hf.
  - rewrite (download_fetched _ _ _ _ _ _ Hf).
    match goal with |- context [unpack ?n ?l ?q ?st] =>
      destruct (unpack_grows n l q st) as (evs & -> & _) end.
    exists (evs ++ evs')%list. simpl. by rewrite <- !app_assoc.
  - rewrite (download_fetch_failed _ _ _ _ _ _ Hf).
    exists evs'. simpl. by rewrite <- !app_assoc.
Qed.

End GivenUrl.

(** X5. A URL given by the caller is used as it is: for a non-empty
    [url] the run does not depend on the module version, released or not,
    and past the destination check it starts, with nothing printed before,
    by announcing and fetching that very URL. *)
Theorem explicit_url_ignores_version (h : Host) (version u localdir : string)
    (quiet : bool) (s : state) :
  PyStr.truthy u = true ->
  @install_samples (with_version version h) (Some u) localdir quiet s
  = @install_samples h (Some u) localdir quiet s
  /\ (destination_refused localdir (fs s) = inr false ->
      exists rest,
        trace (@install_samples h (Some u) localdir quiet s).2
        = (trace s ++ @shown h quiet ("INFO: retrieving " +:+ u)
           ++ Call_urlretrieve u :: rest)%list).
Proof.
  intros Hu. split.
  - destruct (destination_refused localdir (fs s)) as [e|[|]] eqn:Hr.
    + by rewrite !(install_unreadable _ _ _ _ e).
    + by rewrite !install_refused.
    + rewrite !install_accepted by done.
      unfold resolved_url, preamble, not_url. rewrite Hu. reflexivity.
  - intros Hacc.
    destruct (@accepted_starts h (Some u) localdir quiet s Hacc) as [rest Hrest].
    exists rest. rewrite Hrest.
    unfold resolved_url, preamble, fetch_events, not_url. rewrite Hu. simpl.
    by rewrite <- !app_assoc.
Qed.

Lemma explicit_url_ignores_version_witness :
  PyStr.truthy "http://localhost/samples.zip" = true
  /\ @install_samples (with_version "2.5.1+" Scenario.plain_host)
       (Some "http://localhost/samples.zip") "./out" false Mock.empty_state
     = @install_samples Scenario.plain_host
         (Some "http://localhost/samples.zip") "./out" false Mock.empty_state
  /\ exists rest,
       trace (@install_samples Scenario.plain_host
                (Some "http://localhost/samples.zip") "./out" false Mock.empty_state).2
       = Call_print ["INFO: retrieving http://localhost/samples.zip"; newline]
         :: Call_urlretrieve "http://localhost/samples.zip" :: rest.
Proof.
  split; [reflexivity|].
  destruct (explicit_url_ignores_version Scenario.plain_host "2.5.1+"
              "http://localhost/samples.zip" "./out" false Mock.empty_state eq_refl)
    as [Hsame Hstart].
  split; [exact Hsame|].
  destruct (Hstart eq_refl) as [rest Hrest].
  exists rest. exact Hrest.
Defined.

Section ErrorPaths.
Context `{Host}.

(** The [finally] block after a body that raised with a file name in
    hand: the file is removed and the exception goes on, unless the removal
    fails, and then its error is the one that leaves. *)
Lemma try_finally_after_raise (body : Py unit) (s s' : state) (e : exn) (name : string) :
  body s = (Raise e, s') ->
  zip_filename s' = Some name -> PyStr.truthy name = true ->
  try_finally body cleanup s
  = match os.remove name (fs s') with
    | inr fs' => (Raise e, State fs' (trace s' ++ [Call_remove name]) (Some name))
    | inl oe => (Raise (OSError oe), State (fs s') (trace s' ++ [Call_remove name]) (Some name))
    end.
Proof.
  intros Hb Hz Hn. unfold try_finally. rewrite Hb, (cleanup_named s' name Hz Hn).
  by destruct (os.remove name (fs s')).
Qed.

Lemma unpack_open_failed (name localdir : string) (quiet : bool) (s : state) (why : string) :
  ZipFile name (fs s) = Failed why ->
  unpack name localdir quiet s
  = (Raise (ExtractionError why),
     State (fs s) (trace s ++ unzip_events name localdir quiet) (zip_filename s)).
Proof.
  intros Hopen. unfold unpack, unzip_events, bind.
  rewrite show_message_run. unfold log, library. simpl.
  rewrite Hopen. simpl. by rewrite <- !app_assoc.
Qed.

Lemma unpack_extract_failed (name localdir : string) (quiet : bool) (s : state)
    (members : list (string * string)) (why : string) (fs2 : gmap string node) :
  ZipFile name (fs s) = Returned members ->
  extractall members localdir (fs s) = (Failed why, fs2) ->
  unpack name localdir quiet s
  = (Raise (ExtractionError why),
     State fs2 (trace s ++ unzip_events name localdir quiet ++ [Call_extractall localdir])
       (zip_filename s)).
Proof.
  intros Hopen Hextract. unfold unpack, unzip_events, bind.
  rewrite show_message_run. unfold log, library. simpl.
  rewrite Hopen. simpl. rewrite Hextract. simpl. by rewrite <- !app_assoc.
Qed.

Lemma calls_preamble (url : option string) (quiet : bool) : calls (preamble url quiet) = [].
Proof.
  unfold preamble.
  destruct (not_url url && module_is_unreleased cntk_version); [apply calls_shown | done].
Qed.

Lemma calls_fetch_events (u : string) (quiet : bool) :
  calls (fetch_events u quiet) = [Call_urlretrieve u].
Proof. unfold fetch_events. by rewrite calls_app, calls_shown. Qed.

Lemma calls_unzip_events (name localdir : string) (quiet : bool) :
  calls (unzip_events name localdir quiet) = [Call_ZipFile name].
Proof. unfold unzip_events. by rewrite calls_app, calls_shown. Qed.

(** The calls of the [try] body after the fetch are the first one, two
    or three of [ZipFile], [extractall], [pip.main]. *)
Lemma unpack_calls_prefix (name localdir : string) (quiet : bool) (s : state) :
  exists k evs,
    (1 <= k <= 3)%nat
    /\ trace (unpack name localdir quiet s).2 = (trace s ++ evs)%list
    /\ calls evs = take k (unpack_calls name localdir).
Proof.
  destruct (ZipFile name (fs s)) as [members|why] eqn:Hopen.
  - destruct (extractall members localdir (fs s)) as [[[]|why] fs2] eqn:Hextract.
    + destruct (os.path_isfile (os.path_join localdir "requirements.txt") fs2) eqn:Hreq.
      * destruct (pip_main ["install"; "-r"; os.path_join localdir "requirements.txt"] fs2)
          as [answer fs3] eqn:Hpip.
        rewrite (unpack_then_pip name localdir quiet s members fs2 Hopen Hextract
                   answer fs3 Hreq Hpip).
        exists 3%nat. eexists. split; [lia|]. split; [reflexivity|].
        by rewrite !calls_app, calls_unzip_events, calls_shown.
      * rewrite (unpack_without_requirements name localdir quiet s members fs2
                   Hopen Hextract Hreq).
        exists 2%nat. eexists. split; [lia|]. split; [reflexivity|].
        by rewrite !calls_app, calls_unzip_events, calls_shown.
    + rewrite (unpack_extract_failed name localdir quiet s members why fs2 Hopen Hextract).
      exists 2%nat. eexists. split; [lia|]. split; [reflexivity|].
      by rewrite !calls_app, calls_unzip_events.
  - rewrite (unpack_open_failed name localdir quiet s why Hopen).
    exists 1%nat. eexists. split; [lia|]. split; [reflexivity|].
    by rewrite calls_unzip_events.
Qed.

End ErrorPaths.

(** X6. When what was downloaded cannot be opened as an archive, nothing
    is extracted and [pip.main] is not called; the downloaded file is
    removed and the archive error leaves [install_samples], unless the
    removal fails, and then the removal's error leaves in its place. *)
Theorem archive_unreadable `{Host} (url : option string) (localdir : string)
    (quiet : bool) (s : state) (name : string) (fs1 : gmap string node) (why : string) :
  destination_refused localdir (fs s) = inr false ->
  urlretrieve (resolved_url url) (fs s) = (Returned name, fs1) ->
  PyStr.truthy name = true ->
  ZipFile name fs1 = Failed why ->
  install_samples url localdir quiet s
  = let tr := (trace s ++ preamble url quiet ++ fetch_events (resolved_url url) quiet
               ++ unzip_events name localdir quiet ++ [Call_remove name])%list in
    match os.remove name fs1 with
    | inr fs' => (Raise (ExtractionError why), State fs' tr (Some name))
    | inl e => (Raise (OSError e), State fs1 tr (Some name))
    end.
Proof.
  intros Hacc Hfetch Hname Hopen. rewrite install_accepted by done.
  set (s0 := State (fs s) (trace s ++ preamble url quiet) None).
  pose proof (download_fetched (resolved_url url) localdir quiet s0 name fs1 Hfetch) as Hb.
  match type of Hb with _ = unpack _ _ _ ?st =>
    rewrite (unpack_open_failed name localdir quiet st why Hopen) in Hb end.
  rewrite (try_finally_after_raise _ _ _ _ name Hb eq_refl Hname).
  simpl. rewrite <- !app_assoc. by destruct (os.remove name fs1).
Qed.

(** X7. When the extraction breaks off, what it has written stays,
    [pip.main] is not called, the downloaded file is removed and the
    extraction error leaves [install_samples], unless the removal fails. *)
Theorem extraction_breaks_off `{Host} (url : option string) (localdir : string)
    (quiet : bool) (s : state) (name : string) (fs1 : gmap string node)
    (members : list (string * string)) (why : string) (fs2 : gmap string node) :
  destination_refused localdir (fs s) = inr false ->
  urlretrieve (resolved_url url) (fs s) = (Returned name, fs1) ->
  PyStr.truthy name = true ->
  ZipFile name fs1 = Returned members ->
  extractall members localdir fs1 = (Failed why, fs2) ->
  install_samples url localdir quiet s
  = let tr := (trace s ++ extraction_events url localdir quiet name
               ++ [Call_remove name])%list in
    match os.remove name fs2 with
    | inr fs' => (Raise (ExtractionError why), State fs' tr (Some name))
    | inl e => (Raise (OSError e), State fs2 tr (Some name))
    end.
Proof.
  intros Hacc Hfetch Hname Hopen Hextract. rewrite install_accepted by done.
  set (s0 := State (fs s) (trace s ++ preamble url quiet) None).
  pose proof (download_fetched (resolved_url url) localdir quiet s0 name fs1 Hfetch) as Hb.
  match type of Hb with _ = unpack _ _ _ ?st =>
    rewrite (unpack_extract_failed name localdir quiet st members why fs2 Hopen Hextract) in Hb
  end.
  rewrite (try_finally_after_raise _ _ _ _ name Hb eq_refl Hname).
  unfold extraction_events. simpl. rewrite <- !app_assoc.
  by destruct (os.remove name fs2).
Qed.

(** X8. When [pip.main] raises instead of returning a status, its
    exception is not caught: the downloaded file is removed and the
    exception leaves [install_samples], unless the removal fails. *)
Theorem pip_exception_propagates `{Host} (url : option string) (localdir : string)
    (quiet : bool) (s : state) (name : string) (fs1 : gmap string node)
    (members : list (string * string)) (fs2 : gmap string node)
    (why : string) (fs3 : gmap string node) :
  destination_refused localdir (fs s) = inr false ->
  urlretrieve (resolved_url url) (fs s) = (Returned name, fs1) ->
  PyStr.truthy name = true ->
  ZipFile name fs1 = Returned members ->
  extractall members localdir fs1 = (Returned tt, fs2) ->
  os.path_isfile (os.path_join localdir "requirements.txt") fs2 = true ->
  pip_main ["install"; "-r"; os.path_join localdir "requirements.txt"] fs2
    = (Failed why, fs3) ->
  install_samples url localdir quiet s
  = let tr := (trace s ++ extraction_events url localdir quiet name
               ++ shown quiet "INFO: installing requirements"
               ++ [Call_pip_main ["install"; "-r"; os.path_join localdir "requirements.txt"]]
               ++ [Call_remove name])%list in
    match os.remove name fs3 with
    | inr fs' => (Raise (PipError why), State fs' tr (Some name))
    | inl e => (Raise (OSError e), State fs3 tr (Some name))
    end.
Proof.
  intros Hacc Hfetch Hname Hopen Hextract Hreq Hpip. rewrite install_accepted by done.
  set (s0 := State (fs s) (trace s ++ preamble url quiet) None).
  pose proof (download_fetched (resolved_url url) localdir quiet s0 name fs1 Hfetch) as Hb.
  match type of Hb with _ = unpack _ _ _ ?st =>
    rewrite (unpack_then_pip name localdir quiet st members fs2
               Hopen Hextract (Failed why) fs3 Hreq Hpip) in Hb
  end.
  rewrite (try_finally_after_raise _ _ _ _ name Hb eq_refl Hname).
  unfold extraction_events. subst s0. cbn [fs trace zip_filename].
  rewrite <- !app_assoc. by destruct (os.remove name fs3).
Qed.

(** X9. Past the destination check, the calls of one run are, in this
    order: one [urlretrieve]; then, if it returned, [ZipFile],
    [extractall] and [pip.main], each one only after the one before it and
    none of them twice; and last one [os.remove] of the name that
    [urlretrieve] returned. *)
Theorem calls_in_order `{Host} (url : option string) (localdir : string)
    (quiet : bool) (s : state) :
  destination_refused localdir (fs s) = inr false ->
  exists evs,
    trace (install_samples url localdir quiet s).2 = (trace s ++ evs)%list
    /\ match urlretrieve (resolved_url url) (fs s) with
       | (Failed _, _) => calls evs = [Call_urlretrieve (resolved_url url)]
       | (Returned name, _) =>
           exists k, (1 <= k <= 3)%nat
             /\ calls evs
                = (Call_urlretrieve (resolved_url url)
                   :: take k (unpack_calls name localdir)
                   ++ (if PyStr.truthy name then [Call_remove name] else []))%list
       end.
Proof.
  intros Hacc. rewrite install_accepted, try_finally_state, cleanup_trace by done.
  set (s0 := State (fs s) (trace s ++ preamble url quiet) None).
  change (fs s) with (fs s0).
  destruct (urlretrieve (resolved_url url) (fs s0)) as [[name|why] fs1] eqn:Hf.
  - rewrite (download_fetched _ _ _ _ _ _ Hf).
    match goal with |- context [unpack name localdir quiet ?st] =>
      rewrite (keeps_zip_unpack name localdir quiet st);
      destruct (unpack_calls_prefix name localdir quiet st) as (k & evs & Hk & -> & Hcalls)
    end.
    simpl. eexists. split; [by rewrite <- !app_assoc|].
    exists k. split; [done|].
    rewrite !calls_app, calls_preamble, calls_fetch_events, Hcalls. simpl.
    by destruct (PyStr.truthy name).
  - rewrite (download_fetch_failed _ _ _ _ _ _ Hf). simpl.
    eexists. split; [by rewrite app_nil_r, <- !app_assoc|].
    by rewrite !calls_app, calls_preamble, calls_fetch_events.
Qed.


Lemma archive_unreadable_witness :
  let h := Scenario.not_an_archive_host in
  (destination_refused "./out" (fs Mock.empty_state) = inr false
   /\ @urlretrieve h (@resolved_url h None) (fs Mock.empty_state)
      = (Returned Mock.tmp_name, Scenario.downloaded)
   /\ PyStr.truthy Mock.tmp_name = true
   /\ @ZipFile h Mock.tmp_name Scenario.downloaded = Failed "BadZipFile")
  /\ (@install_samples h None "./out" false Mock.empty_state).1
     = Raise (ExtractionError "BadZipFile")
  /\ fs (@install_samples h None "./out" false Mock.empty_state).2 = ∅.
Proof.
  intros h. split; [repeat split; reflexivity|].
  rewrite (@archive_unreadable h None "./out" false Mock.empty_state
             Mock.tmp_name Scenario.downloaded "BadZipFile"
             eq_refl eq_refl eq_refl eq_refl).
  split; [reflexivity|]. vm_compute. reflexivity.
Defined.

Lemma extraction_breaks_off_witness :
  let h := Scenario.broken_archive_host in
  (destination_refused "./out" (fs Mock.empty_state) = inr false
   /\ @urlretrieve h (@resolved_url h None) (fs Mock.empty_state)
      = (Returned Mock.tmp_name, Scenario.downloaded)
   /\ PyStr.truthy Mock.tmp_name = true
   /\ @ZipFile h Mock.tmp_name Scenario.downloaded = Returned Mock.with_requirements
   /\ @extractall h Mock.with_requirements "./out" Scenario.downloaded
      = (Failed "BadZipFile", Scenario.downloaded))
  /\ (@install_samples h None "./out" false Mock.empty_state).1
     = Raise (ExtractionError "BadZipFile").
Proof.
  intros h. split; [repeat split; reflexivity|].
  rewrite (@extraction_breaks_off h None "./out" false Mock.empty_state
             Mock.tmp_name Scenario.downloaded Mock.with_requirements "BadZipFile"
             Scenario.downloaded eq_refl eq_refl eq_refl eq_refl eq_refl).
  reflexivity.
Defined.

Lemma pip_exception_propagates_witness :
  let h := Scenario.pip_raising_host in
  let fs2 := (Mock.extract Mock.with_requirements "./out" Scenario.downloaded).2 in
  (destination_refused "./out" (fs Mock.empty_state) = inr false
   /\ @urlretrieve h (@resolved_url h None) (fs Mock.empty_state)
      = (Returned Mock.tmp_name, Scenario.downloaded)
   /\ PyStr.truthy Mock.tmp_name = true
   /\ @ZipFile h Mock.tmp_name Scenario.downloaded = Returned Mock.with_requirements
   /\ @extractall h Mock.with_requirements "./out" Scenario.downloaded = (Returned tt, fs2)
   /\ os.path_isfile (os.path_join "./out" "requirements.txt") fs2 = true
   /\ @pip_main h ["install"; "-r"; os.path_join "./out" "requirements.txt"] fs2
      = (Failed "SystemExit", fs2))
  /\ (@install_samples h None "./out" false Mock.empty_state).1
     = Raise (PipError "SystemExit").
Proof.
  intros h fs2. split; [repeat split; reflexivity|].
  rewrite (@pip_exception_propagates h None "./out" false Mock.empty_state
             Mock.tmp_name Scenario.downloaded Mock.with_requirements fs2 "SystemExit" fs2
             eq_refl eq_refl eq_refl eq_refl eq_refl eq_refl eq_refl).
  reflexivity.
Defined.

Lemma calls_in_order_witness :
  let h := Scenario.unreleased_host in
  destination_refused "./out" (fs Mock.empty_state) = inr false
  /\ exists evs,
       trace (@install_samples h None "./out" false Mock.empty_state).2
       = (trace Mock.empty_state ++ evs)%list
       /\ exists k, (1 <= k <= 3)%nat
            /\ calls evs
               = (Call_urlretrieve (@resolved_url h None)
                  :: take k (unpack_calls Mock.tmp_name "./out")
                  ++ [Call_remove Mock.tmp_name])%list.
Proof.
  intros h. split; [reflexivity|].
  exact (@calls_in_order h None "./out" false Mock.empty_state eq_refl).
Defined.
